(** * audiobait: the Cacophony API client (src/api/api.go)

    A shallow embedding of package [api] and the properties of its
    session, download and event-reporting operations.

    Go strings and byte slices are byte sequences, modelled as [string].
    Go [int] values are modelled as [Z].  The Go [error] interface is a
    four-constructor type: the nil interface, a pointer to the package's
    own [Error] struct, a nil pointer of that type, or any other error
    type.  Every method is a state transformer over the receiver and the
    outside world (file system and the log of calls made to it); a Go
    panic is a separate outcome.

    The Go standard library is not part of the package.  Its operations are
    collected in the record [Env]: the general theorems hold for every
    [Env]; closed examples are evaluated in the concrete instance
    [Sim.env], which contains an executable codec for a fragment of JSON. *)

From Stdlib Require Import ZArith Ascii String.
From stdpp Require Import gmap strings list pretty.

Open Scope string_scope.
Open Scope Z_scope.

(** ** Go values used throughout *)

Definition bytes := string.

(** The result of a library call of shape [(T, error)]. *)
Inductive or_err (A : Type) : Type :=
| Failed (msg : string)
| Got (a : A).
Arguments Failed {A} msg.
Arguments Got {A} a.

(** The outcome of running Go code: it returns a value, or it panics. *)
Inductive Result (A : Type) : Type :=
| Returned (a : A)
| Panicked (msg : string).
Arguments Returned {A} a.
Arguments Panicked {A} msg.

#[global] Instance or_err_ret : MRet or_err := fun A a => Got a.

#[global] Instance or_err_bind : MBind or_err := fun A B f m =>
  match m with
  | Failed msg => Failed msg
  | Got a => f a
  end.

(** ** package time *)

Module time.

(** An instant (seconds and nanoseconds since the Unix epoch) with the
    offset, in seconds east of UTC, of the location it is shown in. *)
Record Time := mkTime { unix : Z; nsec : Z; offset : Z }.

Definition UTC (t : Time) : Time := mkTime (unix t) (nsec t) 0.

(** Proleptic Gregorian date (year, month, day) of a day number counted
    from 1970-01-01. *)
Definition civil (days : Z) : Z * Z * Z :=
  let z := days + 719468 in
  let era := z / 146097 in
  let doe := z mod 146097 in
  let yoe := (doe - doe / 1460 + doe / 36524 - doe / 146096) / 365 in
  let doy := doe - (365 * yoe + yoe / 4 - yoe / 100) in
  let mp := (5 * doy + 2) / 153 in
  let d := doy - (153 * mp + 2) / 5 + 1 in
  let m := if mp <? 10 then mp + 3 else mp - 9 in
  (yoe + era * 400 + (if m <=? 2 then 1 else 0), m, d).

Fixpoint zeros (n : nat) : string :=
  match n with O => "" | S n => "0" +:+ zeros n end.

(** [appendInt]: decimal text, zero-padded to [width] digits, with a
    leading minus sign for negative numbers. *)
Definition appendInt (x : Z) (width : nat) : string :=
  let ds := pretty (Z.abs x) in
  (if x <? 0 then "-" else "") +:+ zeros (width - String.length ds) +:+ ds.

Definition date_text (t : Time) : string :=
  let abs := unix t + offset t in
  let '(y, m, d) := civil (abs / 86400) in
  appendInt y 4 +:+ "-" +:+ appendInt m 2 +:+ "-" +:+ appendInt d 2.

Definition clock_text (t : Time) : string :=
  let s := (unix t + offset t) mod 86400 in
  appendInt (s / 3600) 2 +:+ ":" +:+ appendInt (s mod 3600 / 60) 2
    +:+ ":" +:+ appendInt (s mod 60) 2.

(** The layout element [Z07:00]. *)
Definition zone_text (t : Time) : string :=
  if offset t =? 0 then "Z"
  else
    let zone := Z.quot (offset t) 60 in
    (if zone <? 0 then "-" else "+")
      +:+ appendInt (Z.abs zone / 60) 2 +:+ ":" +:+ appendInt (Z.abs zone mod 60) 2.

(** [t.Format(time.RFC3339)], layout [2006-01-02T15:04:05Z07:00]. *)
Definition Format_RFC3339 (t : Time) : string :=
  date_text t +:+ "T" +:+ clock_text t +:+ zone_text t.

(** A field of a layout: exactly [width] characters, all decimal digits. *)
Fixpoint digits (s : string) : bool :=
  match s with
  | EmptyString => true
  | String c r => (48 <=? N_of_ascii c)%N && (N_of_ascii c <=? 57)%N && digits r
  end.

Definition field (width : nat) (s : string) : bool :=
  Nat.eqb (String.length s) width && digits s.

End time.

(** ** package encoding/json: the values *)

(** What [json.Unmarshal] stores in an [interface{}]: nil, bool, float64,
    string, []interface{} or map[string]interface{}.  A number is kept as
    the decimal text that [json.Marshal] prints for it; the members of an
    object are kept in source order. *)
#[warnings="-register-all"]
Inductive json : Type :=
| JNull
| JBool (b : bool)
| JNum (text : string)
| JStr (s : string)
| JArr (elems : list json)
| JObj (members : list (string * json)).

(** A Go [[]string] seen as a JSON value. *)
Definition JStrings (l : list string) : json := JArr (JStr <$> l).

(** ** The package's error type *)

(** [type Error struct] *)
Record Error := mkError { message : string; permanent : bool }.

(** Values of the interface type [error]: the nil interface; a pointer to
    an [Error] struct; a nil pointer of that pointer type stored in the
    interface, which is not equal to nil although no struct is behind it
    (the package never builds one, a caller can); or an error of any other
    type, of which only the message matters here. *)
Inductive error : Type :=
| nil_error
| ApiError (e : Error)
| NilApiError
| OtherError (msg : string).

(** [func (e *Error) Error() string], on a receiver that is not nil. *)
Definition Error_Error (e : Error) : string := message e.

(** [func (e *Error) Permanent() bool], on a receiver that is not nil;
    on a nil receiver reading the field panics. *)
Definition Error_Permanent (e : Error) : bool := permanent e.

(** [err.Error()] through the interface.  Calling it on the nil interface
    or on a nil [Error] pointer panics in Go; the package calls it only on
    errors that its libraries returned, which are neither. *)
Definition error_text (err : error) : string :=
  match err with
  | nil_error => ""
  | ApiError e => Error_Error e
  | NilApiError => ""
  | OtherError msg => msg
  end.

(** [func IsPermanentError(err error) bool].  The type assertion to the
    pointer type of [Error] succeeds on every value of that type, the nil
    pointer included, and [apiErr.Permanent()] then reads a field through
    it. *)
Definition IsPermanentError (err : error) : Result bool :=
  match err with
  | nil_error => Returned false
  | ApiError apiErr => Returned (Error_Permanent apiErr)
  | NilApiError => Panicked "invalid memory address or nil pointer dereference"
  | OtherError _ => Returned true (* non-Errors are considered permanent. *)
  end.

(** [func isHTTPSuccess(code int) bool] *)
Definition isHTTPSuccess (code : Z) : bool := (200 <=? code) && (code <? 300).

(** [func isHTTPClientError(code int) bool] *)
Definition isHTTPClientError (code : Z) : bool := (400 <=? code) && (code <? 500).

(** [func temporaryError(err error) *Error] *)
Definition temporaryError (err : error) : Error :=
  mkError (error_text err) false.

(** [func formatTimestamp(t time.Time) string] *)
Definition formatTimestamp (t : time.Time) : string :=
  time.Format_RFC3339 (time.UTC t).

(** [const httpTimeout = 60 * time.Second], in seconds. *)
Definition httpTimeout : Z := 60.

(** ** package net/http *)

(** [http.Request]: method, URL, headers and the body that is sent. *)
Record Request := mkRequest {
  Method : string;
  URL : string;
  Header : gmap string string;
  Payload : bytes
}.

(** [req.Header.Set(key, value)] *)
Definition Header_Set (key value : string) (req : Request) : Request :=
  mkRequest (Method req) (URL req) (<[key := value]> (Header req)) (Payload req).

(** An [io.ReadCloser]: reading yields [content] and then either the end
    of the stream or, when [broken] is set, that read error. *)
Record ReadCloser := mkBody { content : bytes; broken : option string }.

(** [http.Response] *)
Record Response := mkResponse {
  StatusCode : Z;
  Status : string;
  Body : ReadCloser
}.

(** [http.StatusOK] *)
Definition StatusOK : Z := 200.

(** [ioutil.ReadAll] *)
Definition ioutil_ReadAll (r : ReadCloser) : or_err bytes :=
  match broken r with
  | Some err => Failed err
  | None => Got (content r)
  end.

(** ** The outside world *)

(** Every call the package makes to a library that acts on the outside, in
    the order it is made.  A call of an HTTP client ([Do], [Get], [Post])
    is one entry, however many requests the client sends for it: Go's
    client follows redirects on its own. *)
Inductive Event : Type :=
| EvHTTP (timeout : Z) (req : Request)  (* one call of an http.Client *)
| EvMkdirAll (path : string)
| EvCreate (path : string)
| EvWrite (path : string) (data : bytes)
| EvLog (line : string).

Record World := mkWorld {
  files : gmap string bytes;
  dirs : gset string;
  calls : list Event
}.

Definition record (ev : Event) (w : World) : World :=
  mkWorld (files w) (dirs w) (calls w ++ [ev]).

(** ** The data shapes decoded from responses *)

(** [type tokenResponse struct] *)
Record tokenResponse := mkTokenResponse {
  Success : bool;
  Messages : list string;
  Token : string
}.

(** [type fileResponse struct] *)
Record fileResponse := mkFileResponse { Jwt : string }.

(** [type Combo struct] *)
Record Combo := mkCombo {
  From : string;
  Until : string;
  Waits : list Z;
  Sounds : list string;
  Volumes : list Z
}.

(** [type Schedule struct] *)
Record Schedule := mkSchedule {
  Combos : list Combo;
  AllSounds : list Z;
  PlayNights : Z;
  Description : string
}.

(** [Schedule{}] *)
Definition Schedule_zero : Schedule := mkSchedule [] [] 0 "".

(** [type scheduleResponse struct] *)
Record scheduleResponse := mkScheduleResponse { Schedule_ : Schedule }.

(** [func (r *tokenResponse) message() string] *)
Definition tokenResponse_message (r : tokenResponse) : string :=
  match Messages r with
  | m :: _ => m
  | [] => "unknown"
  end.

(** ** The standard library and the network, as seen by the package *)

Record Env := mkEnv {
  (** [net/url]: [None] when the URL parses, else the parse error. *)
  url_Parse : string -> option string;
  (** [json.Marshal] of a [map[string]string]. *)
  json_Marshal_strings : gmap string string -> or_err bytes;
  (** [json.Marshal] of a [map[string]interface{}]. *)
  json_Marshal : gmap string json -> or_err bytes;
  (** [json.Unmarshal] into a nil [map[string]interface{}]: an error, or the
      map left in the variable; [Got None] is the map left nil. *)
  json_Unmarshal : bytes -> or_err (option (gmap string json));
  (** [json.NewDecoder(body).Decode] into a zero struct of each type. *)
  json_Decode_tokenResponse : ReadCloser -> or_err tokenResponse;
  json_Decode_fileResponse : ReadCloser -> or_err fileResponse;
  json_Decode_scheduleResponse : ReadCloser -> or_err scheduleResponse;
  (** The HTTP client: what one call of it returns for a request, given all
      that happened so far.  The response is the last one the client got,
      after the redirects it followed. *)
  http_RoundTrip : World -> Z -> Request -> or_err Response;
  (** The operating system: [Some err] when the file-system call fails. *)
  os_fault : World -> Event -> option string;
  (** [filepath.Join] of two elements. *)
  filepath_Join : string -> string -> string
}.

(** [strconv.Itoa] *)
Definition strconv_Itoa (i : Z) : string := pretty i.

(** The directories [os.MkdirAll] makes sure of: the path and each of its
    proper prefixes that ends before a separator. *)
Fixpoint path_prefixes (seen rest : string) : list string :=
  match rest with
  | EmptyString => [seen]
  | String c rest' =>
      (if bool_decide (c = "/"%char) && negb (bool_decide (seen = ""))
       then [seen] else [])
        ++ path_prefixes (seen +:+ String c "") rest'
  end.

(** ** The session *)

(** [type CacophonyAPI struct] *)
Record CacophonyAPI := mkAPI {
  serverURL : string;
  group : string;
  deviceName : string;
  password : string;
  token : string;
  justRegistered : bool
}.

(** [func (api *CacophonyAPI) Password() string] *)
Definition Password (api : CacophonyAPI) : string := password api.

(** [func (api *CacophonyAPI) JustRegistered() bool] *)
Definition JustRegistered (api : CacophonyAPI) : bool := justRegistered api.

(** ** Running a method *)

(** The receiver [*api] and the world. *)
Record St := mkSt { this : CacophonyAPI; world : World }.

Definition Go (A : Type) : Type := St -> Result A * St.

#[global] Instance Go_ret : MRet Go := fun A a st => (Returned a, st).

#[global] Instance Go_bind : MBind Go := fun A B f m st =>
  match m st with
  | (Returned a, st') => f a st'
  | (Panicked msg, st') => (Panicked msg, st')
  end.

Definition panic {A : Type} (msg : string) : Go A := fun st => (Panicked msg, st).

Definition get_this : Go CacophonyAPI := fun st => (Returned (this st), st).

Definition get_world : Go World := fun st => (Returned (world st), st).

Definition put_world (w : World) : Go unit := fun st => (Returned tt, mkSt (this st) w).

(** The struct after [api.token = tok]. *)
Definition with_token (tok : string) (api : CacophonyAPI) : CacophonyAPI :=
  mkAPI (serverURL api) (group api) (deviceName api) (password api)
        tok (justRegistered api).

(** [api.token = tok] *)
Definition set_token (tok : string) : Go unit := fun st =>
  (Returned tt, mkSt (with_token tok (this st)) (world st)).

(** ** The package's functions *)

Section api.

Context (E : Env).

(** [http.NewRequest(method, url, body)]: with a constant, valid method
    it fails exactly when the URL does not parse. *)
Definition http_NewRequest (method url : string) (body : bytes) : or_err Request :=
  match url_Parse E url with
  | Some err => Failed err
  | None => Got (mkRequest method url ∅ body)
  end.

(** [client.Do(req)] for a client with the given timeout (0 is none): one
    call of the client, logged as such, and its outcome. *)
Definition client_Do (timeout : Z) (req : Request) : Go (or_err Response) :=
  fun st =>
    (Returned (http_RoundTrip E (world st) timeout req),
     mkSt (this st) (record (EvHTTP timeout req) (world st))).

(** [http.Post(url, contentType, body)], on the default client. *)
Definition http_Post (url contentType : string) (body : bytes) : Go (or_err Response) :=
  match http_NewRequest "POST" url body with
  | Failed err => mret (Failed err)
  | Got req => client_Do 0 (Header_Set "Content-Type" contentType req)
  end.

(** [http.Get(url)], on the default client. *)
Definition http_Get (url : string) : Go (or_err Response) :=
  match http_NewRequest "GET" url "" with
  | Failed err => mret (Failed err)
  | Got req => client_Do 0 req
  end.

(** [log.Println] *)
Definition log_Println (line : string) : Go unit :=
  fun st => (Returned tt, mkSt (this st) (record (EvLog line) (world st))).

(** [os.MkdirAll(path, 0755)] *)
Definition os_MkdirAll (path : string) : Go error :=
  fun st =>
    let w := record (EvMkdirAll path) (world st) in
    match os_fault E (world st) (EvMkdirAll path) with
    | Some err => (Returned (OtherError err), mkSt (this st) w)
    | None =>
        (Returned nil_error,
         mkSt (this st)
              (mkWorld (files w) (list_to_set (path_prefixes "" path) ∪ dirs w) (calls w)))
    end.

(** [os.Create(path)]: the file exists and is empty afterwards. *)
Definition os_Create (path : string) : Go error :=
  fun st =>
    let w := record (EvCreate path) (world st) in
    match os_fault E (world st) (EvCreate path) with
    | Some err => (Returned (OtherError err), mkSt (this st) w)
    | None =>
        (Returned nil_error,
         mkSt (this st) (mkWorld (<[path := ""]> (files w)) (dirs w) (calls w)))
    end.

(** [io.Copy(out, body)] into the file just created at [path]: what can
    be read is written; then the read error, if any, is returned. *)
Definition io_Copy (path : string) (body : ReadCloser) : Go error :=
  fun st =>
    let w := record (EvWrite path (content body)) (world st) in
    match os_fault E (world st) (EvWrite path (content body)) with
    | Some err => (Returned (OtherError err), mkSt (this st) w)
    | None =>
        (Returned (match broken body with
                   | Some err => OtherError err
                   | None => nil_error
                   end),
         mkSt (this st) (mkWorld (<[path := content body]> (files w)) (dirs w) (calls w)))
    end.

(** [func (api *CacophonyAPI) newToken() error] *)
Definition newToken : Go error :=
  api ← get_this;
  if bool_decide (password api = "") then
    mret (OtherError "no password set")
  else
    match json_Marshal_strings E
            {[ "devicename" := deviceName api; "password" := password api ]} with
    | Failed err => mret (OtherError err)
    | Got payload =>
        r ← http_Post (serverURL api +:+ "/authenticate_device") "application/json" payload;
        match r with
        | Failed err => mret (OtherError err)
        | Got postResp =>
            match json_Decode_tokenResponse E (Body postResp) with
            | Failed err => mret (OtherError ("decode: " +:+ err))
            | Got resp =>
                if negb (Success resp) then
                  mret (OtherError ("registration failed: " +:+ tokenResponse_message resp))
                else
                  _ ← set_token (Token resp);
                  mret nil_error
            end
        end
    end.

(** [func NewAPI(serverURL, group, deviceName, password string)], which
    returns a pointer to the new session, or nil, and an error.
    The new struct has the zero value in [token] and [justRegistered]. *)
Definition NewAPI (serverURL group deviceName password : string) (w : World)
  : Result (option CacophonyAPI * error) * World :=
  let api := mkAPI serverURL group deviceName password "" false in
  match newToken (mkSt api w) with
  | (Returned nil_error, st) => (Returned (Some (this st), nil_error), world st)
  | (Returned err, st) => (Returned (None, err), world st)
  | (Panicked msg, st) => (Panicked msg, world st)
  end.

(** [func (api *CacophonyAPI) getFileFromJWT(jwt, path string) error] *)
Definition getFileFromJWT (jwt path : string) : Go error :=
  api ← get_this;
  (* Create the file *)
  err ← os_Create path;
  match err with
  | nil_error =>
      (* Get the data *)
      r ← http_Get (serverURL api +:+ "/api/v1/signedUrl?jwt=" +:+ jwt);
      match r with
      | Failed err => mret (OtherError err)
      | Got resp =>
          (* Check server response *)
          if bool_decide (StatusCode resp ≠ StatusOK) then
            mret (OtherError ("bad status: " +:+ Status resp))
          else
            (* Write the body to file *)
            io_Copy path (Body resp)
      end
  | _ => mret err
  end.

(** [func (api *CacophonyAPI) GetFile(fileID int, path string) error].
    The error of [http.NewRequest] is dropped: when the URL does not
    parse, [req] is nil and [req.Header.Set] panics. *)
Definition GetFile (fileID : Z) (path : string) : Go error :=
  api ← get_this;
  match http_NewRequest "GET" (serverURL api +:+ "/api/v1/files/" +:+ strconv_Itoa fileID) "" with
  | Failed _ => panic "invalid memory address or nil pointer dereference"
  | Got req =>
      r ← client_Do 0 (Header_Set "Authorization" (token api) req);
      match r with
      | Failed err => mret (OtherError err)
      | Got resp =>
          match json_Decode_fileResponse E (Body resp) with
          | Failed err => mret (OtherError err)
          | Got fr => getFileFromJWT (Jwt fr) path
          end
      end
  end.

(** The loop [for _, fileID := range schedule.AllSounds]. *)
Fixpoint GetFiles_loop (fileFolder : string) (ids : list Z) : Go error :=
  match ids with
  | [] => mret nil_error
  | fileID :: rest =>
      err ← GetFile fileID (filepath_Join E fileFolder (strconv_Itoa fileID));
      match err with
      | nil_error => GetFiles_loop fileFolder rest
      | _ => mret err
      end
  end.

(** [func (api *CacophonyAPI) GetFilesFromSchedule(schedule Schedule, fileFolder string) error] *)
Definition GetFilesFromSchedule (schedule : Schedule) (fileFolder : string) : Go error :=
  err ← os_MkdirAll fileFolder;
  match err with
  | nil_error => GetFiles_loop fileFolder (AllSounds schedule)
  | _ => mret err
  end.

(** [func (api *CacophonyAPI) GetSchedule() (Schedule, error)].
    As in [GetFile], an unparsable URL leaves [req] nil. *)
Definition GetSchedule : Go (Schedule * error) :=
  api ← get_this;
  _ ← log_Println "Getting new schedule";
  match http_NewRequest "GET" (serverURL api +:+ "/api/v1/schedules") "" with
  | Failed _ => panic "invalid memory address or nil pointer dereference"
  | Got req =>
      r ← client_Do 0 (Header_Set "Authorization" (token api) req);
      match r with
      | Failed err => mret (Schedule_zero, OtherError err)
      | Got resp =>
          match json_Decode_scheduleResponse E (Body resp) with
          | Failed err => mret (Schedule_zero, OtherError err)
          | Got sr => mret (Schedule_ sr, nil_error)
          end
      end
  end.

(** [func (api *CacophonyAPI) ReportEvent(jsonDetails []byte, times []time.Time) error] *)
Definition ReportEvent (jsonDetails : bytes) (times : list time.Time) : Go error :=
  api ← get_this;
  (* Deserialise the JSON event details into a map. *)
  match json_Unmarshal E jsonDetails with
  | Failed err => mret (OtherError err)
  | Got details =>
      (* Convert the event times for sending and add to the map to send. *)
      let dateTimes := formatTimestamp <$> times in
      match details with
      | None => panic "assignment to entry in nil map"
      | Some details =>
          let details := <["dateTimes" := JStrings dateTimes]> details in
          (* Serialise the map back to JSON for sending. *)
          match json_Marshal E details with
          | Failed err => mret (OtherError err)
          | Got jsonAll =>
              (* Prepare request. *)
              match http_NewRequest "POST" (serverURL api +:+ "/api/v1/events") jsonAll with
              | Failed err => mret (OtherError err)
              | Got req =>
                  let req := Header_Set "Authorization" (token api)
                               (Header_Set "Content-Type" "application/json" req) in
                  (* Send. *)
                  r ← client_Do httpTimeout req;
                  match r with
                  | Failed err => mret (ApiError (temporaryError (OtherError err)))
                  | Got resp =>
                      if negb (isHTTPSuccess (StatusCode resp)) then
                        match ioutil_ReadAll (Body resp) with
                        | Failed err =>
                            mret (ApiError (temporaryError (OtherError
                              ("request failed (" +:+ pretty (StatusCode resp)
                                 +:+ ") and body read failed: " +:+ err))))
                        | Got body =>
                            mret (ApiError (mkError
                              ("HTTP request failed (" +:+ pretty (StatusCode resp)
                                 +:+ "): " +:+ body)
                              (isHTTPClientError (StatusCode resp))))
                        end
                      else mret nil_error
                  end
              end
          end
      end
  end.

End api.

(** ** A concrete environment

    [Sim.env server fault] is an [Env] whose library part is executable.
    Its JSON codec follows encoding/json on a fragment: objects, arrays,
    [null], [true], [false], integers of at most fifteen digits (which a
    float64 holds exactly and [json.Marshal] prints back unchanged) and
    strings of ASCII characters.  Input beyond the fragment is answered by
    an error whose text starts with [unsupported]; nothing below is
    evaluated on such input. *)

Module Sim.

(** JSON text written with ['] for the double quote. *)
Fixpoint dq (s : string) : string :=
  match s with
  | EmptyString => EmptyString
  | String c r => String (if Ascii.eqb c "'" then "034"%char else c) (dq r)
  end.

Definition is_space (c : ascii) : bool :=
  Ascii.eqb c " " || Ascii.eqb c "009" || Ascii.eqb c "010" || Ascii.eqb c "013".

Definition is_digit (c : ascii) : bool :=
  (48 <=? N_of_ascii c)%N && (N_of_ascii c <=? 57)%N.

Fixpoint skip_space (s : string) : string :=
  match s with
  | String c r => if is_space c then skip_space r else s
  | EmptyString => s
  end.

(** [strip lit s]: the rest of [s] after its prefix [lit]. *)
Fixpoint strip (lit s : string) : option string :=
  match lit, s with
  | EmptyString, _ => Some s
  | String a lit', String b s' => if Ascii.eqb a b then strip lit' s' else None
  | String _ _, EmptyString => None
  end.

Fixpoint span_digits (s : string) : string * string :=
  match s with
  | String c r =>
      if is_digit c then let '(ds, rest) := span_digits r in (String c ds, rest)
      else ("", s)
  | EmptyString => ("", s)
  end.

(** An integer literal: an optional minus sign, then either 0 or
    digits that do not start with 0. *)
Definition scan_number (s : string) : or_err (json * string) :=
  let '(sign, s1) := match s with
                     | String "-" r => ("-", r)
                     | _ => ("", s)
                     end in
  let '(ds, rest) := match s1 with
                     | String "0" r => ("0", r)
                     | _ => span_digits s1
                     end in
  match ds, rest with
  | EmptyString, _ => Failed "invalid character in numeric literal"
  | _, String "." _ | _, String "e" _ | _, String "E" _ =>
      Failed "unsupported: fraction or exponent"
  | _, _ =>
      if (String.length ds <=? 15)%nat then Got (JNum (sign +:+ ds), rest)
      else Failed "unsupported: integer of more than fifteen digits"
  end.

(** The text of a string literal after its opening quote. *)
Fixpoint scan_string (s acc : string) : or_err (string * string) :=
  match s with
  | EmptyString => Failed "unexpected end of JSON input"
  | String "034" r => Got (acc, r)
  | String "\" (String e r) =>
      let plain c := scan_string r (acc +:+ String c "") in
      if Ascii.eqb e "034" then plain "034"%char
      else if Ascii.eqb e "\" then plain "\"%char
      else if Ascii.eqb e "/" then plain "/"%char
      else if Ascii.eqb e "b" then plain "008"%char
      else if Ascii.eqb e "f" then plain "012"%char
      else if Ascii.eqb e "n" then plain "010"%char
      else if Ascii.eqb e "r" then plain "013"%char
      else if Ascii.eqb e "t" then plain "009"%char
      else if Ascii.eqb e "u" then Failed "unsupported: \u escape"
      else Failed "invalid character in string escape code"
  | String "\" EmptyString => Failed "unexpected end of JSON input"
  | String c r =>
      if (N_of_ascii c <? 32)%N then Failed "invalid character in string literal"
      else if (127 <? N_of_ascii c)%N then Failed "unsupported: non-ASCII text"
      else scan_string r (acc +:+ String c "")
  end.

Definition scan_literal (lit : string) (v : json) (s : string) : or_err (json * string) :=
  match strip lit s with
  | Some rest => Got (v, rest)
  | None => Failed ("invalid character in literal " +:+ lit)
  end.

(** One JSON value at the front of the input, and the rest. *)
Fixpoint scan_value (fuel : nat) (s : string) : or_err (json * string) :=
  match fuel with
  | O => Failed "unsupported: out of fuel"
  | S fuel =>
      match skip_space s with
      | EmptyString => Failed "unexpected end of JSON input"
      | String c r as s' =>
          if Ascii.eqb c "{" then
            match skip_space r with
            | String "}" r' => Got (JObj [], r')
            | _ => scan_members fuel r []
            end
          else if Ascii.eqb c "[" then
            match skip_space r with
            | String "]" r' => Got (JArr [], r')
            | _ => scan_elems fuel r []
            end
          else if Ascii.eqb c "034" then
            match scan_string r "" with
            | Failed err => Failed err
            | Got (text, r') => Got (JStr text, r')
            end
          else if Ascii.eqb c "n" then scan_literal "null" JNull s'
          else if Ascii.eqb c "t" then scan_literal "true" (JBool true) s'
          else if Ascii.eqb c "f" then scan_literal "false" (JBool false) s'
          else if Ascii.eqb c "-" || is_digit c then scan_number s'
          else Failed "invalid character looking for beginning of value"
      end
  end
with scan_elems (fuel : nat) (s : string) (acc : list json) : or_err (json * string) :=
  match fuel with
  | O => Failed "unsupported: out of fuel"
  | S fuel =>
      match scan_value fuel s with
      | Failed err => Failed err
      | Got (v, r) =>
          match skip_space r with
          | String "," r' => scan_elems fuel r' (acc ++ [v])
          | String "]" r' => Got (JArr (acc ++ [v]), r')
          | _ => Failed "invalid character after array element"
          end
      end
  end
with scan_members (fuel : nat) (s : string) (acc : list (string * json))
  : or_err (json * string) :=
  match fuel with
  | O => Failed "unsupported: out of fuel"
  | S fuel =>
      match skip_space s with
      | String "034" r =>
          match scan_string r "" with
          | Failed err => Failed err
          | Got (key, r1) =>
              match skip_space r1 with
              | String ":" r2 =>
                  match scan_value fuel r2 with
                  | Failed err => Failed err
                  | Got (v, r3) =>
                      match skip_space r3 with
                      | String "," r4 => scan_members fuel r4 (acc ++ [(key, v)])
                      | String "}" r4 => Got (JObj (acc ++ [(key, v)]), r4)
                      | _ => Failed "invalid character after object key:value pair"
                      end
                  end
              | _ => Failed "invalid character after object key"
              end
          end
      | _ => Failed "invalid character looking for beginning of object key string"
      end
  end.

Definition scan (s : string) : or_err (json * string) :=
  scan_value (2 * String.length s + 2) s.

(** A whole input holding exactly one value, as [json.Unmarshal] wants. *)
Definition scan_all (s : string) : or_err json :=
  match scan s with
  | Failed err => Failed err
  | Got (v, rest) =>
      match skip_space rest with
      | EmptyString => Got v
      | _ => Failed "invalid character after top-level value"
      end
  end.

(** *** Printing, as [json.Marshal] does *)

Definition hex_digit (n : N) : ascii :=
  ascii_of_N (if (n <? 10)%N then 48 + n else 87 + n).

(** One character of a string literal: quote and backslash get a
    backslash; newline, carriage return and tab their short form; other
    control characters and [<], [>], [&] the form [\u00XX]. *)
Definition escape (c : ascii) : string :=
  let n := N_of_ascii c in
  if Ascii.eqb c "034" then String "\" (String "034" "")
  else if Ascii.eqb c "\" then "\\"
  else if Ascii.eqb c "010" then "\n"
  else if Ascii.eqb c "013" then "\r"
  else if Ascii.eqb c "009" then "\t"
  else if (n <? 32)%N || Ascii.eqb c "<" || Ascii.eqb c ">" || Ascii.eqb c "&" then
    "\u00" +:+ String (hex_digit (n / 16)) (String (hex_digit (n mod 16)) "")
  else String c "".

Fixpoint escape_all (s : string) : string :=
  match s with
  | EmptyString => EmptyString
  | String c r => escape c +:+ escape_all r
  end.

Definition quote (s : string) : string :=
  String "034" (escape_all s +:+ String "034" "").

Fixpoint join (sep : string) (l : list string) : string :=
  match l with
  | [] => ""
  | [x] => x
  | x :: r => x +:+ sep +:+ join sep r
  end.

(** [m[key] = text] on the members of a map kept sorted by key. *)
Fixpoint put (key text : string) (l : list (string * string)) : list (string * string) :=
  match l with
  | [] => [(key, text)]
  | (k, t) :: r =>
      if String.eqb key k then (key, text) :: r
      else if String.ltb key k then (key, text) :: l
      else (k, t) :: put key text r
  end.

(** Members in source order, the last of equal keys winning, then
    sorted by key as the encoder sorts map keys. *)
Definition sorted (l : list (string * string)) : list (string * string) :=
  foldl (fun acc kt => put kt.1 kt.2 acc) [] l.

Fixpoint print (v : json) : string :=
  match v with
  | JNull => "null"
  | JBool true => "true"
  | JBool false => "false"
  | JNum text => text
  | JStr s => quote s
  | JArr elems => "[" +:+ join "," (map print elems) +:+ "]"
  | JObj members =>
      "{" +:+ join "," (map (fun kt => quote kt.1 +:+ ":" +:+ kt.2)
                            (sorted (map (fun kv => (kv.1, print kv.2)) members)))
          +:+ "}"
  end.

Definition Marshal (m : gmap string json) : or_err bytes :=
  Got (print (JObj (map_to_list m))).

Definition Marshal_strings (m : gmap string string) : or_err bytes :=
  Got (print (JObj (map_to_list (JStr <$> m)))).

(** *** [json.Unmarshal] into a nil [map[string]interface{}] *)

(** An object fills the map member by member; [null] leaves the map nil
    and is no error; any other value is a type error. *)
Definition Unmarshal (data : bytes) : or_err (option (gmap string json)) :=
  match scan_all data with
  | Failed err => Failed err
  | Got (JObj members) =>
      Got (Some (foldl (fun m kv => <[kv.1 := kv.2]> m) ∅ members))
  | Got JNull => Got None
  | Got _ => Failed "json: cannot unmarshal into Go value of type map[string]interface {}"
  end.

(** *** [Decode] into the package's structs *)

(** The first value of the stream.  A read error only matters when the
    bytes before it hold no complete value. *)
Definition decode_value (body : ReadCloser) : or_err json :=
  match scan (content body), broken body with
  | Got (v, _), _ => Got v
  | Failed _, Some err => Failed err
  | Failed err, None => Failed err
  end.

Definition lower (c : ascii) : ascii :=
  let n := N_of_ascii c in
  if (65 <=? n)%N && (n <=? 90)%N then ascii_of_N (n + 32) else c.

Fixpoint lower_all (s : string) : string :=
  match s with
  | EmptyString => EmptyString
  | String c r => String (lower c) (lower_all r)
  end.

(** A key names a struct field when they are equal up to letter case. *)
Definition names (key field : string) : bool :=
  String.eqb (lower_all key) (lower_all field).

Definition mismatch {A : Type} (ty : string) : or_err A :=
  Failed ("json: cannot unmarshal into Go value of type " +:+ ty).

(** [null] leaves a field as it is. *)
Definition as_bool (old : bool) (v : json) : or_err bool :=
  match v with JBool b => Got b | JNull => Got old | _ => mismatch "bool" end.

Definition as_string (old : string) (v : json) : or_err string :=
  match v with JStr s => Got s | JNull => Got old | _ => mismatch "string" end.

Fixpoint digits_value (s : string) (acc : Z) : Z :=
  match s with
  | EmptyString => acc
  | String c r => digits_value r (10 * acc + (Z.of_N (N_of_ascii c) - 48))
  end.

Definition as_int (old : Z) (v : json) : or_err Z :=
  match v with
  | JNum (String "-" ds) => Got (- digits_value ds 0)
  | JNum ds => Got (digits_value ds 0)
  | JNull => Got old
  | _ => mismatch "int"
  end.

Fixpoint each {A : Type} (f : json -> or_err A) (l : list json) : or_err (list A) :=
  match l with
  | [] => Got []
  | v :: r => a ← f v; rest ← each f r; mret (a :: rest)
  end.

Definition as_list {A : Type} (f : json -> or_err A) (v : json) : or_err (list A) :=
  match v with JArr l => each f l | JNull => Got [] | _ => mismatch "slice" end.

(** Members are stored one after the other into the struct [zero]. *)
Definition as_struct {A : Type} (zero : A)
    (store : string -> json -> A -> or_err A) (v : json) : or_err A :=
  match v with
  | JObj members => foldl (fun acc kv => a ← acc; store kv.1 kv.2 a) (Got zero) members
  | JNull => Got zero
  | _ => mismatch "struct"
  end.

Definition Decode_tokenResponse (body : ReadCloser) : or_err tokenResponse :=
  v ← decode_value body;
  as_struct (mkTokenResponse false [] "")
    (fun key v r =>
       if names key "Success" then
         b ← as_bool (Success r) v; mret (mkTokenResponse b (Messages r) (Token r))
       else if names key "Messages" then
         l ← as_list (as_string "") v; mret (mkTokenResponse (Success r) l (Token r))
       else if names key "Token" then
         t ← as_string (Token r) v; mret (mkTokenResponse (Success r) (Messages r) t)
       else mret r)
    v.

Definition Decode_fileResponse (body : ReadCloser) : or_err fileResponse :=
  v ← decode_value body;
  as_struct (mkFileResponse "")
    (fun key v r =>
       if names key "Jwt" then t ← as_string (Jwt r) v; mret (mkFileResponse t)
       else mret r)
    v.

Definition as_Combo (v : json) : or_err Combo :=
  as_struct (mkCombo "" "" [] [] [])
    (fun key v c =>
       if names key "From" then
         x ← as_string (From c) v; mret (mkCombo x (Until c) (Waits c) (Sounds c) (Volumes c))
       else if names key "Until" then
         x ← as_string (Until c) v; mret (mkCombo (From c) x (Waits c) (Sounds c) (Volumes c))
       else if names key "Waits" then
         x ← as_list (as_int 0) v; mret (mkCombo (From c) (Until c) x (Sounds c) (Volumes c))
       else if names key "Sounds" then
         x ← as_list (as_string "") v; mret (mkCombo (From c) (Until c) (Waits c) x (Volumes c))
       else if names key "Volumes" then
         x ← as_list (as_int 0) v; mret (mkCombo (From c) (Until c) (Waits c) (Sounds c) x)
       else mret c)
    v.

Definition as_Schedule (old : Schedule) (v : json) : or_err Schedule :=
  as_struct old
    (fun key v s =>
       if names key "Combos" then
         x ← as_list as_Combo v; mret (mkSchedule x (AllSounds s) (PlayNights s) (Description s))
       else if names key "AllSounds" then
         x ← as_list (as_int 0) v; mret (mkSchedule (Combos s) x (PlayNights s) (Description s))
       else if names key "PlayNights" then
         x ← as_int (PlayNights s) v; mret (mkSchedule (Combos s) (AllSounds s) x (Description s))
       else if names key "Description" then
         x ← as_string (Description s) v; mret (mkSchedule (Combos s) (AllSounds s) (PlayNights s) x)
       else mret s)
    v.

Definition Decode_scheduleResponse (body : ReadCloser) : or_err scheduleResponse :=
  v ← decode_value body;
  as_struct (mkScheduleResponse Schedule_zero)
    (fun key v r =>
       if names key "Schedule" then
         x ← as_Schedule (Schedule_ r) v; mret (mkScheduleResponse x)
       else mret r)
    v.

(** *** The environment *)

Fixpoint has_control (s : string) : bool :=
  match s with
  | EmptyString => false
  | String c r => (N_of_ascii c <? 32)%N || (N_of_ascii c =? 127)%N || has_control r
  end.

(** The URLs of the examples are plain; a control character is what
    makes one unparsable here. *)
Definition url_Parse (url : string) : option string :=
  if has_control url then Some "net/url: invalid control character in URL" else None.

(** Joining a clean, non-empty directory and a file name. *)
Definition Join (dir name : string) : string := dir +:+ "/" +:+ name.

Definition env (server : World -> Z -> Request -> or_err Response)
    (fault : World -> Event -> option string) : Env :=
  mkEnv url_Parse Marshal_strings Marshal Unmarshal
        Decode_tokenResponse Decode_fileResponse Decode_scheduleResponse
        server fault Join.

(** A disk on which every call succeeds. *)
Definition no_fault (w : World) (ev : Event) : option string := None.

Definition empty_world : World := mkWorld ∅ ∅ [].

Definition ok (body : bytes) : Response := mkResponse 200 "200 OK" (mkBody body None).

End Sim.

(** ** Reading the log of calls *)

(** The requests the package handed to an HTTP client, oldest first. *)
Definition http_requests (w : World) : list Request :=
  omap (fun ev => match ev with EvHTTP _ req => Some req | _ => None end) (calls w).

(** The paths given to [os.Create], oldest first. *)
Definition created_paths (w : World) : list string :=
  omap (fun ev => match ev with EvCreate path => Some path | _ => None end) (calls w).

(** The world right after a successful [os.Create(path)]. *)
Definition after_Create (path : string) (w : World) : World :=
  mkWorld (<[path := ""]> (files w)) (dirs w) (calls w ++ [EvCreate path]).

(** The world right after a successful [os.MkdirAll(path, 0755)]. *)
Definition after_MkdirAll (path : string) (w : World) : World :=
  mkWorld (files w) (list_to_set (path_prefixes "" path) ∪ dirs w)
          (calls w ++ [EvMkdirAll path]).

(** [fetched E folder ids st st']: fetching the files [ids] one after the
    other into [folder], each [GetFile] returning nil, leads from [st] to
    [st']. *)
Inductive fetched (E : Env) (folder : string) : list Z -> St -> St -> Prop :=
| fetched_nil st : fetched E folder [] st st
| fetched_cons fileID ids st st1 st2 :
    GetFile E fileID (filepath_Join E folder (strconv_Itoa fileID)) st
      = (Returned nil_error, st1) ->
    fetched E folder ids st1 st2 ->
    fetched E folder (fileID :: ids) st st2.

(** ** Sessions and servers of the examples *)

Module Demo.

Definition session : CacophonyAPI := mkAPI "http://srv" "birds" "lure-1" "secret" "tok" false.

Definition start : St := mkSt session Sim.empty_world.

(** A transport that gives every request the same outcome. *)
Definition always (r : or_err Response) (w : World) (timeout : Z) (req : Request)
  : or_err Response := r.

Definition env_always (r : or_err Response) : Env := Sim.env (always r) Sim.no_fault.

Definition not_found (body : ReadCloser) : Response := mkResponse 404 "404 Not Found" body.

(** A file server: the metadata of file [n] is the token [key-n]; the
    signed URL of [key-n] yields the text [sound n], or 404 for the
    files listed in [missing]. *)
Definition sounds (missing : list string) (w : World) (timeout : Z) (req : Request)
  : or_err Response :=
  match Sim.strip "http://srv/api/v1/files/" (URL req) with
  | Some n => Got (Sim.ok (Sim.dq "{'jwt':'key-" +:+ n +:+ Sim.dq "'}"))
  | None =>
      match Sim.strip "http://srv/api/v1/signedUrl?jwt=key-" (URL req) with
      | Some n =>
          if bool_decide (n ∈ missing) then Got (not_found (mkBody "" None))
          else Got (Sim.ok ("sound " +:+ n))
      | None => Got (not_found (mkBody "" None))
      end
  end.

Definition env_sounds (missing : list string) : Env := Sim.env (sounds missing) Sim.no_fault.

(** The same file server with signed URLs that work once: a signed URL
    that has been asked for before answers 404. *)
Definition sounds_once (w : World) (timeout : Z) (req : Request) : or_err Response :=
  match Sim.strip "http://srv/api/v1/files/" (URL req) with
  | Some n => Got (Sim.ok (Sim.dq "{'jwt':'key-" +:+ n +:+ Sim.dq "'}"))
  | None =>
      match Sim.strip "http://srv/api/v1/signedUrl?jwt=key-" (URL req) with
      | Some n =>
          if bool_decide (URL req ∈ URL <$> http_requests w)
          then Got (not_found (mkBody "" None))
          else Got (Sim.ok ("sound " +:+ n))
      | None => Got (not_found (mkBody "" None))
      end
  end.

Definition env_sounds_once : Env := Sim.env sounds_once Sim.no_fault.

(** 2023-01-01T00:00:00Z, shown in a zone one hour east of UTC. *)
Definition new_year : time.Time := time.mkTime 1672531200 0 3600.

End Demo.

(** * Properties *)

(** Unfolding one step of a method run. *)
Ltac run :=
  cbv [mbind mret Go_bind Go_ret get_this get_world put_world set_token panic
       client_Do log_Println http_Post http_Get os_Create os_MkdirAll io_Copy];
  cbn [this world fst snd].

(** ** Error classification *)

(** C3, as amended.  On the nil error [IsPermanentError] returns false;
    on a pointer to an [Error] it returns exactly the permanence flag of
    that error; on an error of any other type it returns true.  The one
    value left is the nil pointer of type [Error] stored in the interface:
    on it the call returns nothing, it panics. *)
Theorem IsPermanentError_cases (err : error) :
  match err with
  | nil_error => IsPermanentError err = Returned false
  | ApiError e => IsPermanentError err = Returned (permanent e)
  | NilApiError => exists text : string, IsPermanentError err = Panicked text
  | OtherError _ => IsPermanentError err = Returned true
  end.
Proof. destruct err as [|e| |msg]; try reflexivity. eexists. reflexivity. Qed.

(** C3, as stated, fails at the nil error: it carries no permanence flag,
    and [IsPermanentError] returns false for it. *)
Lemma IsPermanentError_nil_is_false :
  IsPermanentError nil_error = Returned false /\
  ~ (forall err : error,
       (forall e, err <> ApiError e) -> IsPermanentError err = Returned true).
Proof.
  split; [reflexivity|].
  intros H. specialize (H nil_error). simpl in H.
  assert (Returned false = Returned true) by (apply H; intros e; discriminate).
  discriminate.
Qed.

(** ** Authentication *)

(** C4.  With an empty password [NewAPI] fails at once: it returns no
    session and the error, and the world is left as it was, so no request
    has reached the transport. *)
Theorem NewAPI_empty_password (E : Env) (serverURL group deviceName : string) (w : World) :
  NewAPI E serverURL group deviceName "" w
    = (Returned (None, OtherError "no password set"), w)
  /\ http_requests (NewAPI E serverURL group deviceName "" w).2 = http_requests w.
Proof. split; reflexivity. Qed.

(** The request [newToken] posts. *)
Lemma newToken_run (E : Env) (st : St) (payload : bytes) (req : Request) :
  password (this st) <> "" ->
  json_Marshal_strings E
    {[ "devicename" := deviceName (this st); "password" := password (this st) ]}
    = Got payload ->
  http_NewRequest E "POST" (serverURL (this st) +:+ "/authenticate_device") payload = Got req ->
  let sent := Header_Set "Content-Type" "application/json" req in
  let st1 := mkSt (this st) (record (EvHTTP 0 sent) (world st)) in
  newToken E st =
    match http_RoundTrip E (world st) 0 sent with
    | Failed err => (Returned (OtherError err), st1)
    | Got postResp =>
        match json_Decode_tokenResponse E (Body postResp) with
        | Failed err => (Returned (OtherError ("decode: " +:+ err)), st1)
        | Got resp =>
            if Success resp then
              (Returned nil_error,
               mkSt (with_token (Token resp) (this st)) (record (EvHTTP 0 sent) (world st)))
            else (Returned (OtherError ("registration failed: " +:+ tokenResponse_message resp)), st1)
        end
    end.
Proof.
  intros Hpw Hm Hreq sent st1. unfold newToken. run.
  rewrite bool_decide_eq_false_2 by exact Hpw.
  rewrite Hm. run. rewrite Hreq. run.
  destruct (http_RoundTrip E (world st) 0 _) as [err|postResp]; [reflexivity|].
  destruct (json_Decode_tokenResponse E (Body postResp)) as [err|resp]; [reflexivity|].
  destruct (Success resp); reflexivity.
Qed.

(** C2, as amended.  When the authentication request gets a response that
    decodes with the success flag set, [NewAPI] returns the session with
    the issued token stored in it, and [JustRegistered] of that session is
    false: no path of the package sets the flag. *)
Theorem NewAPI_success_stores_token (E : Env)
    (serverURL group deviceName password : string) (w : World)
    (payload : bytes) (req : Request) (postResp : Response) (resp : tokenResponse) :
  password <> "" ->
  json_Marshal_strings E {[ "devicename" := deviceName; "password" := password ]}
    = Got payload ->
  http_NewRequest E "POST" (serverURL +:+ "/authenticate_device") payload = Got req ->
  http_RoundTrip E w 0 (Header_Set "Content-Type" "application/json" req) = Got postResp ->
  json_Decode_tokenResponse E (Body postResp) = Got resp ->
  Success resp = true ->
  exists (api : CacophonyAPI) (w' : World),
    NewAPI E serverURL group deviceName password w = (Returned (Some api, nil_error), w')
    /\ token api = Token resp
    /\ JustRegistered api = false
    /\ api = mkAPI serverURL group deviceName password (Token resp) false.
Proof.
  intros Hpw Hm Hreq Hrt Hdec Hok.
  unfold NewAPI.
  rewrite (newToken_run E (mkSt (mkAPI serverURL group deviceName password EmptyString false) w)
             payload req Hpw Hm Hreq). cbn [this world].
  rewrite Hrt, Hdec, Hok. cbn.
  eexists _, _. repeat split.
Qed.

Lemma NewAPI_success_stores_token_witness :
  exists (api : CacophonyAPI) (w' : World),
    NewAPI (Demo.env_always (Got (Sim.ok (Sim.dq "{'success':true,'messages':[],'token':'abc'}"))))
           "http://srv" "birds" "lure-1" "secret" Sim.empty_world
      = (Returned (Some api, nil_error), w')
    /\ token api = "abc"
    /\ JustRegistered api = false
    /\ api = mkAPI "http://srv" "birds" "lure-1" "secret" "abc" false.
Proof.
  eapply (NewAPI_success_stores_token
            (Demo.env_always (Got (Sim.ok (Sim.dq "{'success':true,'messages':[],'token':'abc'}"))))
            "http://srv" "birds" "lure-1" "secret" Sim.empty_world
            _ _ _ (mkTokenResponse true [] "abc"));
    [discriminate | vm_compute; reflexivity | vm_compute; reflexivity
    | reflexivity | vm_compute; reflexivity | reflexivity].
Defined.

(** C2, as stated, fails: after a successful authentication the session
    holds the token, yet [JustRegistered] does not return true. *)
Lemma NewAPI_success_not_justRegistered :
  exists (api : CacophonyAPI) (w' : World),
    NewAPI (Demo.env_always (Got (Sim.ok (Sim.dq "{'success':true,'messages':[],'token':'abc'}"))))
           "http://srv" "birds" "lure-1" "secret" Sim.empty_world
      = (Returned (Some api, nil_error), w')
    /\ token api = "abc"
    /\ JustRegistered api <> true.
Proof.
  eexists _, _. split; [vm_compute; reflexivity|].
  split; [reflexivity | discriminate].
Qed.

(** C6, as amended.  When the authentication request gets a response that
    decodes with the success flag clear, [NewAPI] returns no session and an
    error whose message is [registration failed: ] followed by the first
    entry of the server's messages, or by [unknown] when there is none. *)
Theorem NewAPI_refused_message (E : Env)
    (serverURL group deviceName password : string) (w : World)
    (payload : bytes) (req : Request) (postResp : Response) (resp : tokenResponse) :
  password <> "" ->
  json_Marshal_strings E {[ "devicename" := deviceName; "password" := password ]}
    = Got payload ->
  http_NewRequest E "POST" (serverURL +:+ "/authenticate_device") payload = Got req ->
  http_RoundTrip E w 0 (Header_Set "Content-Type" "application/json" req) = Got postResp ->
  json_Decode_tokenResponse E (Body postResp) = Got resp ->
  Success resp = false ->
  exists (err : error) (w' : World),
    NewAPI E serverURL group deviceName password w = (Returned (None, err), w')
    /\ error_text err
       = "registration failed: " +:+ default "unknown" (head (Messages resp))
    /\ tokenResponse_message resp = default "unknown" (head (Messages resp)).
Proof.
  intros Hpw Hm Hreq Hrt Hdec Hno.
  unfold NewAPI.
  rewrite (newToken_run E (mkSt (mkAPI serverURL group deviceName password EmptyString false) w)
             payload req Hpw Hm Hreq). cbn [this world].
  rewrite Hrt, Hdec, Hno. cbn [world].
  assert (Hmsg : tokenResponse_message resp = default "unknown" (head (Messages resp))).
  { unfold tokenResponse_message. destruct (Messages resp); reflexivity. }
  eexists _, _. split; [reflexivity|]. split; [|exact Hmsg].
  cbn [error_text]. rewrite Hmsg. reflexivity.
Qed.

Lemma NewAPI_refused_message_witness :
  exists (err : error) (w' : World),
    NewAPI (Demo.env_always (Got (Sim.ok (Sim.dq "{'success':false,'messages':[]}"))))
           "http://srv" "birds" "lure-1" "secret" Sim.empty_world
      = (Returned (None, err), w')
    /\ error_text err = "registration failed: unknown"
    /\ tokenResponse_message (mkTokenResponse false [] "") = "unknown".
Proof.
  eapply (NewAPI_refused_message
            (Demo.env_always (Got (Sim.ok (Sim.dq "{'success':false,'messages':[]}"))))
            "http://srv" "birds" "lure-1" "secret" Sim.empty_world
            _ _ _ (mkTokenResponse false [] ""));
    [discriminate | vm_compute; reflexivity | vm_compute; reflexivity
    | reflexivity | vm_compute; reflexivity | reflexivity].
Defined.

(** C6, as stated, fails: for the response
    [{success:false, messages:[bad creds]}] the message of the error is not
    exactly [bad creds]; it carries the prefix [registration failed: ]. *)
Lemma NewAPI_refused_message_has_prefix :
  exists (err : error) (w' : World),
    NewAPI (Demo.env_always
              (Got (Sim.ok (Sim.dq "{'success':false,'messages':['bad creds']}"))))
           "http://srv" "birds" "lure-1" "secret" Sim.empty_world
      = (Returned (None, err), w')
    /\ error_text err = "registration failed: bad creds"
    /\ error_text err <> "bad creds".
Proof.
  eexists _, _. split; [vm_compute; reflexivity|].
  split; [reflexivity | discriminate].
Qed.

(** ** Event reports *)

(** What [ReportEvent] does once the details have been decoded, merged,
    encoded and put in a request: one call of the transport, whose outcome
    decides the returned error. *)
Lemma ReportEvent_run (E : Env) (st : St) (jsonDetails : bytes) (times : list time.Time)
    (details : gmap string json) (jsonAll : bytes) (req : Request) :
  json_Unmarshal E jsonDetails = Got (Some details) ->
  json_Marshal E (<["dateTimes" := JStrings (formatTimestamp <$> times)]> details)
    = Got jsonAll ->
  http_NewRequest E "POST" (serverURL (this st) +:+ "/api/v1/events") jsonAll = Got req ->
  let sent := Header_Set "Authorization" (token (this st))
                (Header_Set "Content-Type" "application/json" req) in
  ReportEvent E jsonDetails times st =
    (Returned
       match http_RoundTrip E (world st) httpTimeout sent with
       | Failed err => ApiError (temporaryError (OtherError err))
       | Got resp =>
           if isHTTPSuccess (StatusCode resp) then nil_error
           else
             match broken (Body resp) with
             | Some err =>
                 ApiError (temporaryError (OtherError
                   ("request failed (" +:+ pretty (StatusCode resp)
                      +:+ ") and body read failed: " +:+ err)))
             | None =>
                 ApiError (mkError
                   ("HTTP request failed (" +:+ pretty (StatusCode resp)
                      +:+ "): " +:+ content (Body resp))
                   (isHTTPClientError (StatusCode resp)))
             end
       end,
     mkSt (this st) (record (EvHTTP httpTimeout sent) (world st))).
Proof.
  intros Hun Hm Hreq sent. unfold ReportEvent. run.
  rewrite Hun, Hm, Hreq. run. fold sent.
  destruct (http_RoundTrip E (world st) httpTimeout sent) as [err|resp]; [reflexivity|].
  destruct (isHTTPSuccess (StatusCode resp)); [reflexivity|]. cbn [negb].
  unfold ioutil_ReadAll. destruct (broken (Body resp)); reflexivity.
Qed.






(** The text of a timestamp is that of its instant in UTC: the zone the
    time came in plays no part, and the zone suffix is [Z]. *)
Lemma formatTimestamp_utc (t : time.Time) :
  formatTimestamp t
    = time.date_text (time.mkTime (time.unix t) (time.nsec t) 0) +:+ "T"
        +:+ time.clock_text (time.mkTime (time.unix t) (time.nsec t) 0) +:+ "Z".
Proof. reflexivity. Qed.

(** The calendar arithmetic behind the date: the month and the day are
    calendar values for every day number, and known days come out right. *)
Lemma civil_month_day (days : Z) :
  let '(_, m, d) := time.civil days in 1 <= m <= 12 /\ 1 <= d <= 31.
Proof.
  unfold time.civil.
  set (doe := (days + 719468) mod 146097).
  assert (Hdoe : 0 <= doe < 146097) by (apply Z.mod_pos_bound; lia).
  clearbody doe.
  set (yoe := (doe - doe / 1460 + doe / 36524 - doe / 146096) / 365).
  set (doy := doe - (365 * yoe + yoe / 4 - yoe / 100)).
  assert (Hdoy : 0 <= doy <= 365) by (subst doy yoe; Z.div_mod_to_equations; lia).
  clearbody doy.
  set (mp := (5 * doy + 2) / 153).
  assert (Hmp : 0 <= mp <= 11) by (subst mp; Z.div_mod_to_equations; lia).
  assert (Hd : 1 <= doy - (153 * mp + 2) / 5 + 1 <= 31)
    by (subst mp; Z.div_mod_to_equations; lia).
  destruct (mp <? 10) eqn:Hlt; [apply Z.ltb_lt in Hlt | apply Z.ltb_ge in Hlt];
    split; lia.
Qed.

Example civil_known_days :
  time.civil 0 = (1970, 1, 1) /\ time.civil 11016 = (2000, 2, 29)
  /\ time.civil 19358 = (2023, 1, 1) /\ time.civil (-1) = (1969, 12, 31).
Proof. repeat split. Qed.

(** C5.  When the details decode to a mapping, [ReportEvent] sets the key
    [dateTimes] of that mapping to the list of the timestamps, each
    formatted as UTC RFC3339 text, whatever the key held before and
    leaving the other keys alone, and hands the transport one request
    whose body is the encoding of the resulting mapping.  For the details
    [{a:1}] and the one timestamp 2023-01-01T00:00:00Z that body is
    [{a:1,dateTimes:[2023-01-01T00:00:00Z]}], keys and strings quoted. *)
Theorem ReportEvent_sends_dateTimes :
  (forall (E : Env) (st : St) (jsonDetails : bytes) (times : list time.Time)
          (details : gmap string json) (jsonAll : bytes) (req : Request),
     json_Unmarshal E jsonDetails = Got (Some details) ->
     let merged := <["dateTimes" := JStrings (formatTimestamp <$> times)]> details in
     json_Marshal E merged = Got jsonAll ->
     http_NewRequest E "POST" (serverURL (this st) +:+ "/api/v1/events") jsonAll = Got req ->
     let sent := Header_Set "Authorization" (token (this st))
                   (Header_Set "Content-Type" "application/json" req) in
     (forall t, t ∈ times ->
        formatTimestamp t = time.Format_RFC3339 (time.UTC t)
        /\ time.zone_text (time.UTC t) = "Z")
     /\ merged !! "dateTimes" = Some (JArr (JStr <$> (formatTimestamp <$> times)))
     /\ (forall key, key <> "dateTimes" -> merged !! key = details !! key)
     /\ calls (world (ReportEvent E jsonDetails times st).2)
        = (calls (world st) ++ [EvHTTP httpTimeout sent])%list
     /\ Payload sent = jsonAll)
  /\
  (forall (server : World -> Z -> Request -> or_err Response)
          (fault : World -> Event -> option string),
     time.Format_RFC3339 Demo.new_year = "2023-01-01T01:00:00+01:00"
     /\ Payload <$> http_requests
          (world (ReportEvent (Sim.env server fault) (Sim.dq "{'a':1}")
                    [Demo.new_year] Demo.start).2)
        = [Sim.dq "{'a':1,'dateTimes':['2023-01-01T00:00:00Z']}"]).
Proof.
  split.
  - intros E st jsonDetails times details jsonAll req Hun merged Hm Hreq sent.
    split; [intros t _; split; reflexivity|].
    split; [apply lookup_insert_eq|].
    split; [intros key Hkey; apply lookup_insert_ne; congruence|].
    rewrite (ReportEvent_run E st jsonDetails times details jsonAll req Hun Hm Hreq).
    split; [reflexivity|].
    unfold http_NewRequest in Hreq. destruct (url_Parse E _); [discriminate|].
    injection Hreq as <-. reflexivity.
  - intros server fault. split; [vm_compute; reflexivity|].
    rewrite (ReportEvent_run (Sim.env server fault) Demo.start (Sim.dq "{'a':1}")
               [Demo.new_year] {[ "a" := JNum "1" ]}
               (Sim.dq "{'a':1,'dateTimes':['2023-01-01T00:00:00Z']}")
               (mkRequest "POST" "http://srv/api/v1/events" ∅
                  (Sim.dq "{'a':1,'dateTimes':['2023-01-01T00:00:00Z']}")));
      [| vm_compute; reflexivity | vm_compute; reflexivity | vm_compute; reflexivity].
    reflexivity.
Qed.

Lemma ReportEvent_sends_dateTimes_witness :
  let E := Demo.env_always (Got (Sim.ok "")) in
  let details : gmap string json := {[ "dateTimes" := JStr "stale"; "a" := JNum "1" ]} in
  let merged := <["dateTimes" := JStrings (formatTimestamp <$> [Demo.new_year])]> details in
  merged !! "dateTimes" = Some (JArr [JStr "2023-01-01T00:00:00Z"])
  /\ merged !! "a" = Some (JNum "1")
  /\ Payload <$> http_requests
       (world (ReportEvent E (Sim.dq "{'dateTimes':'stale','a':1}")
                 [Demo.new_year] Demo.start).2)
     = [Sim.dq "{'a':1,'dateTimes':['2023-01-01T00:00:00Z']}"].
Proof.
  cbn zeta.
  pose proof (proj1 ReportEvent_sends_dateTimes
                (Demo.env_always (Got (Sim.ok ""))) Demo.start
                (Sim.dq "{'dateTimes':'stale','a':1}") [Demo.new_year]
                {[ "dateTimes" := JStr "stale"; "a" := JNum "1" ]}
                (Sim.dq "{'a':1,'dateTimes':['2023-01-01T00:00:00Z']}")
                (mkRequest "POST" "http://srv/api/v1/events" ∅
                   (Sim.dq "{'a':1,'dateTimes':['2023-01-01T00:00:00Z']}")))
    as H.
  cbn zeta in H.
  destruct H as (_ & Hkey & Hother & Hcalls & _);
    [vm_compute; reflexivity | vm_compute; reflexivity | vm_compute; reflexivity |].
  split; [exact Hkey|].
  split; [rewrite (Hother "a") by discriminate; reflexivity|].
  unfold http_requests. rewrite Hcalls. reflexivity.
Defined.

(** What holds of malformed details: when [json.Unmarshal] reports an
    error, [ReportEvent] returns it, unwrapped, with the session and the
    world untouched; [IsPermanentError] takes such an error as permanent. *)
Lemma ReportEvent_rejected_details (E : Env) (st : St) (jsonDetails : bytes)
    (times : list time.Time) (msg : string) :
  json_Unmarshal E jsonDetails = Failed msg ->
  ReportEvent E jsonDetails times st = (Returned (OtherError msg), st)
  /\ IsPermanentError (OtherError msg) = Returned true.
Proof.
  intros Hun. unfold ReportEvent. run. rewrite Hun. split; reflexivity.
Qed.

(** C7, at the input where the code departs from it.  The four bytes
    [null] are not a JSON object, yet [json.Unmarshal] accepts them and
    leaves the map nil; [ReportEvent] then panics on the assignment to
    [details[dateTimes]] instead of returning an error.  Nothing has been
    sent and nothing has changed at that point. *)
Theorem ReportEvent_null_details_panics
    (server : World -> Z -> Request -> or_err Response)
    (fault : World -> Event -> option string) (times : list time.Time) (st : St) :
  json_Unmarshal (Sim.env server fault) "null" = Got None
  /\ ReportEvent (Sim.env server fault) "null" times st
     = (Panicked "assignment to entry in nil map", st).
Proof. split; reflexivity. Qed.

(** ** Downloads *)

(** [getFileFromJWT], call by call. *)
Lemma getFileFromJWT_run (E : Env) (jwt path : string) (st : St) :
  getFileFromJWT E jwt path st =
    match os_fault E (world st) (EvCreate path) with
    | Some err =>
        (Returned (OtherError err), mkSt (this st) (record (EvCreate path) (world st)))
    | None =>
        let w1 := after_Create path (world st) in
        let url := serverURL (this st) +:+ "/api/v1/signedUrl?jwt=" +:+ jwt in
        match url_Parse E url with
        | Some err => (Returned (OtherError err), mkSt (this st) w1)
        | None =>
            let dl := mkRequest "GET" url ∅ "" in
            let w2 := record (EvHTTP 0 dl) w1 in
            match http_RoundTrip E w1 0 dl with
            | Failed err => (Returned (OtherError err), mkSt (this st) w2)
            | Got resp =>
                if bool_decide (StatusCode resp <> StatusOK) then
                  (Returned (OtherError ("bad status: " +:+ Status resp)), mkSt (this st) w2)
                else io_Copy E path (Body resp) (mkSt (this st) w2)
            end
        end
    end.
Proof.
  unfold getFileFromJWT. run.
  destruct (os_fault E (world st) (EvCreate path)) as [err|]; [reflexivity|].
  unfold http_NewRequest, after_Create, record. cbn [files dirs calls].
  destruct (url_Parse E _) as [err|]; [reflexivity|]. run.
  unfold record. cbn [files dirs calls].
  destruct (http_RoundTrip E _ 0 _) as [err|resp]; [reflexivity|].
  destruct (bool_decide (StatusCode resp <> StatusOK)); reflexivity.
Qed.

(** [GetFile] up to the point where it has the signed token. *)
Lemma GetFile_run (E : Env) (fileID : Z) (path : string) (st : St) :
  GetFile E fileID path st =
    match url_Parse E (serverURL (this st) +:+ "/api/v1/files/" +:+ strconv_Itoa fileID) with
    | Some _ => (Panicked "invalid memory address or nil pointer dereference", st)
    | None =>
        let asked :=
          Header_Set "Authorization" (token (this st))
            (mkRequest "GET" (serverURL (this st) +:+ "/api/v1/files/" +:+ strconv_Itoa fileID)
                       ∅ "") in
        let st1 := mkSt (this st) (record (EvHTTP 0 asked) (world st)) in
        match http_RoundTrip E (world st) 0 asked with
        | Failed err => (Returned (OtherError err), st1)
        | Got resp =>
            match json_Decode_fileResponse E (Body resp) with
            | Failed err => (Returned (OtherError err), st1)
            | Got fr => getFileFromJWT E (Jwt fr) path st1
            end
        end
    end.
Proof.
  unfold GetFile, http_NewRequest. run.
  destruct (url_Parse E _) as [err|]; [reflexivity|]. run.
  destruct (http_RoundTrip E (world st) 0 _) as [err|resp]; [reflexivity|].
  destruct (json_Decode_fileResponse E (Body resp)) as [err|fr]; reflexivity.
Qed.

(** No method but [newToken] writes to the receiver. *)
Lemma getFileFromJWT_this (E : Env) (jwt path : string) (st : St) :
  this (getFileFromJWT E jwt path st).2 = this st.
Proof.
  rewrite getFileFromJWT_run. unfold io_Copy. cbv zeta.
  repeat case_match; reflexivity.
Qed.

Lemma GetFile_this (E : Env) (fileID : Z) (path : string) (st : St) :
  this (GetFile E fileID path st).2 = this st.
Proof.
  rewrite GetFile_run. cbv zeta.
  repeat case_match; try reflexivity. rewrite getFileFromJWT_this. reflexivity.
Qed.

(** [GetFile] writes to no file but the one at [path]. *)
Lemma getFileFromJWT_other_files (E : Env) (jwt path other : string) (st : St) :
  other <> path ->
  files (world (getFileFromJWT E jwt path st).2) !! other = files (world st) !! other.
Proof.
  intros Hne. rewrite getFileFromJWT_run. unfold io_Copy, after_Create, record.
  cbv zeta. repeat case_match; cbn [world files snd];
    rewrite ?lookup_insert_ne by congruence; reflexivity.
Qed.

Lemma GetFile_other_files (E : Env) (fileID : Z) (path other : string) (st : St) :
  other <> path ->
  files (world (GetFile E fileID path st).2) !! other = files (world st) !! other.
Proof.
  intros Hne. rewrite GetFile_run. cbv zeta.
  repeat case_match; try reflexivity.
  rewrite getFileFromJWT_other_files by exact Hne. reflexivity.
Qed.

(** C10.  Whenever [GetFile] gets as far as asking for the signed URL, it
    has created the file at [path] before: the call of [os.Create] comes
    between the metadata request and the download request, and the file
    is empty when the download is asked for.  When the download then
    fails, by a transport error or by a status other than 200, [GetFile]
    returns an error and the file at [path] is left empty, whatever was
    there before. *)
Theorem GetFile_creates_before_download (E : Env) (fileID : Z) (path : string) (st : St)
    (resp : Response) (fr : fileResponse) :
  let asked :=
    Header_Set "Authorization" (token (this st))
      (mkRequest "GET" (serverURL (this st) +:+ "/api/v1/files/" +:+ strconv_Itoa fileID)
                 ∅ "") in
  let w1 := record (EvHTTP 0 asked) (world st) in
  let w2 := after_Create path w1 in
  let dl := mkRequest "GET" (serverURL (this st) +:+ "/api/v1/signedUrl?jwt=" +:+ Jwt fr)
                      ∅ "" in
  let final := world (GetFile E fileID path st).2 in
  url_Parse E (URL asked) = None ->
  http_RoundTrip E (world st) 0 asked = Got resp ->
  json_Decode_fileResponse E (Body resp) = Got fr ->
  os_fault E w1 (EvCreate path) = None ->
  url_Parse E (URL dl) = None ->
  (exists rest : list Event,
     calls final
       = (calls (world st) ++ [EvHTTP 0 asked; EvCreate path; EvHTTP 0 dl] ++ rest)%list)
  /\ files w2 !! path = Some ""
  /\ (forall msg : string,
        http_RoundTrip E w2 0 dl = Failed msg ->
        (GetFile E fileID path st).1 = Returned (OtherError msg)
        /\ files final !! path = Some "")
  /\ (forall got : Response,
        http_RoundTrip E w2 0 dl = Got got ->
        StatusCode got <> 200 ->
        (GetFile E fileID path st).1 = Returned (OtherError ("bad status: " +:+ Status got))
        /\ files final !! path = Some "").
Proof.
  intros asked w1 w2 dl final Hurl Hmeta Hfr Hcreate Hdl.
  assert (Hrun : GetFile E fileID path st =
                 match http_RoundTrip E w2 0 dl with
                 | Failed err => (Returned (OtherError err), mkSt (this st) (record (EvHTTP 0 dl) w2))
                 | Got got =>
                     if bool_decide (StatusCode got <> StatusOK) then
                       (Returned (OtherError ("bad status: " +:+ Status got)),
                        mkSt (this st) (record (EvHTTP 0 dl) w2))
                     else io_Copy E path (Body got) (mkSt (this st) (record (EvHTTP 0 dl) w2))
                 end).
  { unfold dl, w2, w1, asked in *. cbn [URL Header_Set] in Hurl, Hdl.
    rewrite GetFile_run. cbv zeta. rewrite Hurl, Hmeta, Hfr.
    rewrite getFileFromJWT_run. cbn [this world].
    rewrite Hcreate. cbv zeta. rewrite Hdl. reflexivity. }
  subst final. rewrite Hrun.
  split; [|split; [apply lookup_insert_eq|split]].
  - destruct (http_RoundTrip E w2 0 dl) as [err|got].
    + exists []. cbn. rewrite <- !app_assoc. reflexivity.
    + destruct (bool_decide (StatusCode got <> StatusOK)).
      * exists []. cbn. rewrite <- !app_assoc. reflexivity.
      * unfold io_Copy. cbn [this world].
        destruct (os_fault E _ (EvWrite _ _));
          exists [EvWrite path (content (Body got))]; cbn; rewrite <- !app_assoc; reflexivity.
  - intros msg Hfail. rewrite Hfail. split; [reflexivity|]. apply lookup_insert_eq.
  - intros got Hgot Hcode. rewrite Hgot.
    rewrite bool_decide_eq_true_2 by exact Hcode.
    split; [reflexivity|]. apply lookup_insert_eq.
Qed.

Lemma GetFile_creates_before_download_witness :
  let st := mkSt Demo.session (mkWorld {[ "sounds/5" := "an older sound" ]} ∅ []) in
  files (world st) !! "sounds/5" = Some "an older sound"
  /\ (GetFile (Demo.env_sounds ["5"]) 5 "sounds/5" st).1
     = Returned (OtherError "bad status: 404 Not Found")
  /\ files (world (GetFile (Demo.env_sounds ["5"]) 5 "sounds/5" st).2) !! "sounds/5" = Some "".
Proof.
  cbn zeta. split; [reflexivity|].
  refine (proj2 (proj2 (proj2
            (GetFile_creates_before_download (Demo.env_sounds ["5"]) 5 "sounds/5"
               (mkSt Demo.session (mkWorld {[ "sounds/5" := "an older sound" ]} ∅ []))
               (Sim.ok (Sim.dq "{'jwt':'key-5'}")) (mkFileResponse "key-5")
               _ _ _ _ _)))
            (Demo.not_found (mkBody "" None)) _ _);
    try (vm_compute; reflexivity).
  vm_compute. discriminate.
Defined.

(** ** Fetching the files of a schedule *)

Lemma append_step (seen : string) (c : ascii) (rest : string) :
  (seen +:+ String c "") +:+ rest = seen +:+ String c rest.
Proof.
  induction seen as [|a seen IH]; [reflexivity|].
  change (String a ((seen +:+ String c "") +:+ rest) = String a (seen +:+ String c rest)).
  f_equal. exact IH.
Qed.

Lemma append_empty (s : string) : s +:+ "" = s.
Proof.
  induction s as [|a s IH]; [reflexivity|].
  change (String a (s +:+ "") = String a s). f_equal. exact IH.
Qed.

(** [os.MkdirAll] makes the directory it is asked for. *)
Lemma path_prefixes_whole (seen rest : string) :
  seen +:+ rest ∈ path_prefixes seen rest.
Proof.
  revert seen. induction rest as [|c rest IH]; intros seen; cbn [path_prefixes].
  - rewrite append_empty. apply list_elem_of_here.
  - apply elem_of_app. right. rewrite <- append_step. apply IH.
Qed.

(** The loop stops at the first file whose [GetFile] returns an error,
    with that error and in the state that call left. *)
Lemma GetFiles_loop_stops (E : Env) (folder : string) (pre : list Z) (fileID : Z)
    (post : list Z) (st st1 st2 : St) (err : error) :
  fetched E folder pre st st1 ->
  GetFile E fileID (filepath_Join E folder (strconv_Itoa fileID)) st1 = (Returned err, st2) ->
  err <> nil_error ->
  GetFiles_loop E folder (pre ++ fileID :: post) st = (Returned err, st2).
Proof.
  intros Hpre Hget Herr. induction Hpre as [st|id ids st sta stb Hid Hids IH].
  - cbn [app GetFiles_loop]. unfold mbind, Go_bind. rewrite Hget.
    destruct err; [congruence | reflexivity | reflexivity | reflexivity].
  - cbn [app GetFiles_loop]. unfold mbind, Go_bind. rewrite Hid. apply IH. exact Hget.
Qed.

(** When every file is fetched the loop returns nil. *)
Lemma GetFiles_loop_all (E : Env) (folder : string) (ids : list Z) (st st1 : St) :
  fetched E folder ids st st1 ->
  GetFiles_loop E folder ids st = (Returned nil_error, st1).
Proof.
  intros Hall. induction Hall as [st|id ids st sta stb Hid Hids IH].
  - reflexivity.
  - cbn [GetFiles_loop]. unfold mbind, Go_bind. rewrite Hid. exact IH.
Qed.

Lemma GetFiles_loop_this (E : Env) (folder : string) (ids : list Z) (st : St) :
  this (GetFiles_loop E folder ids st).2 = this st.
Proof.
  revert st. induction ids as [|id ids IH]; intros st; [reflexivity|].
  cbn [GetFiles_loop]. unfold mbind, Go_bind.
  pose proof (GetFile_this E id (filepath_Join E folder (strconv_Itoa id)) st) as Hid.
  destruct (GetFile E id _ st) as [[err|msg] st1]; cbn [snd] in *; [|exact Hid].
  destruct err; [rewrite IH; exact Hid | exact Hid | exact Hid | exact Hid].
Qed.

(** C8, as amended.  [GetFilesFromSchedule] first calls [os.MkdirAll] on
    the folder and, if that fails, returns its error without fetching
    anything.  Otherwise the folder exists and the IDs of [AllSounds] are
    fetched in order, without de-duplication, each to the path that joins
    the folder and the decimal text of the ID: if all are fetched the
    result is nil; at the first ID whose [GetFile] returns an error the
    method returns that error, attempts no later ID and undoes nothing,
    and every file but the one at the failing ID's own path is what it was
    before the failing fetch.  For the IDs [5, 7, 5] on a server that has
    them, three fetches are made, in that order, and two files are on
    disk. *)
Theorem GetFilesFromSchedule_fetches_in_order :
  (forall (E : Env) (schedule : Schedule) (folder : string) (st : St),
     (forall msg : string,
        os_fault E (world st) (EvMkdirAll folder) = Some msg ->
        GetFilesFromSchedule E schedule folder st
          = (Returned (OtherError msg),
             mkSt (this st) (record (EvMkdirAll folder) (world st))))
     /\
     (os_fault E (world st) (EvMkdirAll folder) = None ->
      let st1 := mkSt (this st) (after_MkdirAll folder (world st)) in
      folder ∈ dirs (world st1)
      /\ GetFilesFromSchedule E schedule folder st
         = GetFiles_loop E folder (AllSounds schedule) st1
      /\ (forall st2 : St,
            fetched E folder (AllSounds schedule) st1 st2 ->
            GetFilesFromSchedule E schedule folder st = (Returned nil_error, st2))
      /\ (forall (pre : list Z) (fileID : Z) (post : list Z) (st2 st3 : St) (err : error),
            AllSounds schedule = (pre ++ fileID :: post)%list ->
            fetched E folder pre st1 st2 ->
            GetFile E fileID (filepath_Join E folder (strconv_Itoa fileID)) st2
              = (Returned err, st3) ->
            err <> nil_error ->
            GetFilesFromSchedule E schedule folder st = (Returned err, st3)
            /\ (forall other : string,
                  other <> filepath_Join E folder (strconv_Itoa fileID) ->
                  files (world st3) !! other = files (world st2) !! other))))
  /\
  (let run := GetFilesFromSchedule (Demo.env_sounds []) (mkSchedule [] [5; 7; 5] 1 "")
                "sounds" Demo.start in
   run.1 = Returned nil_error
   /\ calls (world run.2) !! 0%nat = Some (EvMkdirAll "sounds")
   /\ URL <$> http_requests (world run.2)
      = ["http://srv/api/v1/files/5"; "http://srv/api/v1/signedUrl?jwt=key-5";
         "http://srv/api/v1/files/7"; "http://srv/api/v1/signedUrl?jwt=key-7";
         "http://srv/api/v1/files/5"; "http://srv/api/v1/signedUrl?jwt=key-5"]
   /\ created_paths (world run.2) = ["sounds/5"; "sounds/7"; "sounds/5"]
   /\ files (world run.2) = {[ "sounds/5" := "sound 5"; "sounds/7" := "sound 7" ]}
   /\ size (files (world run.2)) = 2%nat).
Proof.
  split.
  - intros E schedule folder st. split.
    + intros msg Hfail. unfold GetFilesFromSchedule. run. rewrite Hfail. reflexivity.
    + intros Hmk st1.
      assert (Hrun : GetFilesFromSchedule E schedule folder st
                     = GetFiles_loop E folder (AllSounds schedule) st1).
      { unfold GetFilesFromSchedule. run. rewrite Hmk. reflexivity. }
      split; [|split; [exact Hrun|split]].
      * cbn [st1 world after_MkdirAll dirs]. apply elem_of_union. left.
        apply elem_of_list_to_set. apply (path_prefixes_whole "" folder).
      * intros st2 Hall. rewrite Hrun. apply GetFiles_loop_all. exact Hall.
      * intros pre fileID post st2 st3 err Hids Hpre Hget Herr. split.
        -- rewrite Hrun, Hids. eapply GetFiles_loop_stops; eassumption.
        -- intros other Hother.
           pose proof (GetFile_other_files E fileID _ other st2 Hother) as Hkeep.
           rewrite Hget in Hkeep. exact Hkeep.
  - cbn zeta. repeat split; vm_compute; reflexivity.
Qed.

Lemma GetFilesFromSchedule_fetches_in_order_witness :
  let run := GetFilesFromSchedule (Demo.env_sounds ["7"]) (mkSchedule [] [5; 7; 5] 1 "")
               "sounds" Demo.start in
  run.1 = Returned (OtherError "bad status: 404 Not Found")
  /\ created_paths (world run.2) = ["sounds/5"; "sounds/7"]
  /\ files (world run.2) !! "sounds/5" = Some "sound 5".
Proof.
  cbn zeta.
  destruct (proj1 GetFilesFromSchedule_fetches_in_order (Demo.env_sounds ["7"])
              (mkSchedule [] [5; 7; 5] 1 "") "sounds" Demo.start) as [_ Hmade].
  destruct (Hmade eq_refl) as (_ & _ & _ & Hstop).
  edestruct (Hstop [5] 7 [5]) as [Hrun Hkeep];
    [ reflexivity
    | eapply fetched_cons; [vm_compute; reflexivity | apply fetched_nil]
    | vm_compute; reflexivity
    | discriminate
    | ].
  rewrite Hrun. cbn [fst snd].
  split; [reflexivity|]. split; [vm_compute; reflexivity|].
  rewrite Hkeep by (vm_compute; discriminate). vm_compute. reflexivity.
Defined.

(** C8, as stated, fails where it says that already-fetched files are
    left in place.  With the IDs [5, 7, 5] and a third fetch whose
    download fails, the file of ID 5 that the first fetch had stored is
    empty in the end: the failing [GetFile] had created it anew before
    asking for the download. *)
Lemma GetFilesFromSchedule_duplicate_failure_empties_file :
  let fetch ids := GetFilesFromSchedule Demo.env_sounds_once (mkSchedule [] ids 1 "")
                     "sounds" Demo.start in
  (fetch [5; 7]).1 = Returned nil_error
  /\ files (world (fetch [5; 7]).2) !! "sounds/5" = Some "sound 5"
  /\ (fetch [5; 7; 5]).1 = Returned (OtherError "bad status: 404 Not Found")
  /\ files (world (fetch [5; 7; 5]).2) !! "sounds/5" = Some ""
  /\ files (world (fetch [5; 7; 5]).2) !! "sounds/7" = Some "sound 7".
Proof. cbn zeta. repeat split; vm_compute; reflexivity. Qed.

(** ** The session *)

Lemma GetSchedule_this (E : Env) (st : St) : this (GetSchedule E st).2 = this st.
Proof.
  unfold GetSchedule, http_NewRequest. run.
  repeat case_match; reflexivity.
Qed.

Lemma ReportEvent_this (E : Env) (jsonDetails : bytes) (times : list time.Time) (st : St) :
  this (ReportEvent E jsonDetails times st).2 = this st.
Proof.
  unfold ReportEvent, http_NewRequest. run.
  repeat case_match; reflexivity.
Qed.

Lemma GetFilesFromSchedule_this (E : Env) (schedule : Schedule) (folder : string) (st : St) :
  this (GetFilesFromSchedule E schedule folder st).2 = this st.
Proof.
  unfold GetFilesFromSchedule. run.
  destruct (os_fault E (world st) (EvMkdirAll folder)); [reflexivity|].
  rewrite GetFiles_loop_this. reflexivity.
Qed.

(** A run of [newToken] that does not return nil leaves the session as it
    was; the method never panics. *)
Lemma newToken_failure_keeps_session (E : Env) (st : St) :
  (newToken E st).1 = Returned nil_error
  \/ (this (newToken E st).2 = this st
      /\ exists err : error, err <> nil_error /\ (newToken E st).1 = Returned err).
Proof.
  assert (Hfail : forall (msg : string) (st' : St),
            this st' = this st ->
            (Returned (OtherError msg), st').1 = Returned nil_error
            \/ (this (Returned (OtherError msg), st').2 = this st
                /\ exists err : error,
                     err <> nil_error
                     /\ (Returned (OtherError msg), st').1 = Returned err)).
  { intros msg st' Hst. right. split; [exact Hst|].
    eexists. split; [|reflexivity]. discriminate. }
  unfold newToken. run.
  destruct (bool_decide (password (this st) = "")); [apply Hfail; reflexivity|].
  destruct (json_Marshal_strings E _) as [msg|payload]; [apply Hfail; reflexivity|].
  run. unfold http_NewRequest.
  destruct (url_Parse E _) as [msg|]; run; [apply Hfail; reflexivity|].
  destruct (http_RoundTrip E (world st) 0 _) as [msg|postResp]; [apply Hfail; reflexivity|].
  destruct (json_Decode_tokenResponse E (Body postResp)) as [msg|resp];
    [apply Hfail; reflexivity|].
  destruct (Success resp); cbn [negb]; [left; reflexivity | apply Hfail; reflexivity].
Qed.

(** C9.  The session that [NewAPI] builds starts with an empty token, and
    as long as its authentication has not succeeded the session is what
    it was and is not handed out.  [GetSchedule], [GetFile],
    [GetFilesFromSchedule] and [ReportEvent] leave every field of the
    session as they found it. *)
Theorem session_written_only_by_authentication (E : Env) :
  (forall (serverURL group deviceName password : string) (w : World),
     let fresh := mkAPI serverURL group deviceName password "" false in
     let auth := newToken E (mkSt fresh w) in
     token fresh = ""
     /\ (auth.1 = Returned nil_error
         \/ (this auth.2 = fresh
             /\ exists err : error,
                  err <> nil_error
                  /\ NewAPI E serverURL group deviceName password w
                     = (Returned (None, err), world auth.2))))
  /\ (forall st : St, this (GetSchedule E st).2 = this st)
  /\ (forall (fileID : Z) (path : string) (st : St),
        this (GetFile E fileID path st).2 = this st)
  /\ (forall (schedule : Schedule) (folder : string) (st : St),
        this (GetFilesFromSchedule E schedule folder st).2 = this st)
  /\ (forall (jsonDetails : bytes) (times : list time.Time) (st : St),
        this (ReportEvent E jsonDetails times st).2 = this st).
Proof.
  split; [|split; [|split; [|split]]].
  - intros serverURL group deviceName password w fresh auth.
    split; [reflexivity|].
    destruct (newToken_failure_keeps_session E (mkSt fresh w)) as [Hok|(Hkeep & err & Herr & Hrun)].
    + left. exact Hok.
    + right. split; [exact Hkeep|]. exists err. split; [exact Herr|].
      unfold NewAPI. fold fresh. subst auth.
      destruct (newToken E (mkSt fresh w)) as [r st']. cbn [fst snd] in *.
      rewrite Hrun. destruct err; [congruence | reflexivity | reflexivity | reflexivity].
  - apply GetSchedule_this.
  - apply GetFile_this.
  - apply GetFilesFromSchedule_this.
  - apply ReportEvent_this.
Qed.

(** * Further properties of the package *)

(** ** Fetching the schedule *)

(** [GetSchedule], call by call. *)
Lemma GetSchedule_run (E : Env) (st : St) :
  GetSchedule E st =
    let st0 := mkSt (this st) (record (EvLog "Getting new schedule") (world st)) in
    match url_Parse E (serverURL (this st) +:+ "/api/v1/schedules") with
    | Some _ => (Panicked "invalid memory address or nil pointer dereference", st0)
    | None =>
        let asked :=
          Header_Set "Authorization" (token (this st))
            (mkRequest "GET" (serverURL (this st) +:+ "/api/v1/schedules") ∅ "") in
        let st1 := mkSt (this st) (record (EvHTTP 0 asked) (world st0)) in
        match http_RoundTrip E (world st0) 0 asked with
        | Failed err => (Returned (Schedule_zero, OtherError err), st1)
        | Got resp =>
            match json_Decode_scheduleResponse E (Body resp) with
            | Failed err => (Returned (Schedule_zero, OtherError err), st1)
            | Got sr => (Returned (Schedule_ sr, nil_error), st1)
            end
        end
    end.
Proof.
  unfold GetSchedule, http_NewRequest. run.
  destruct (url_Parse E _) as [err|]; [reflexivity|]. run.
  destruct (http_RoundTrip E _ 0 _) as [err|resp]; [reflexivity|].
  destruct (json_Decode_scheduleResponse E (Body resp)) as [err|sr]; reflexivity.
Qed.

(** X1.  Whatever response the client hands back for the schedule request,
    if its body decodes then [GetSchedule] returns the decoded schedule and
    a nil error: the status of the response is not looked at.  The client
    has been called once, with a GET of [/api/v1/schedules] under the
    server URL whose only header is [Authorization], set to the session
    token. *)
Theorem GetSchedule_returns_decoded_body (E : Env) (st : St) (resp : Response)
    (sr : scheduleResponse) :
  let url := serverURL (this st) +:+ "/api/v1/schedules" in
  let asked := mkRequest "GET" url {[ "Authorization" := token (this st) ]} "" in
  url_Parse E url = None ->
  http_RoundTrip E (record (EvLog "Getting new schedule") (world st)) 0 asked = Got resp ->
  json_Decode_scheduleResponse E (Body resp) = Got sr ->
  (GetSchedule E st).1 = Returned (Schedule_ sr, nil_error)
  /\ http_requests (world (GetSchedule E st).2) = (http_requests (world st) ++ [asked])%list.
Proof.
  intros url asked Hurl Hrt Hdec.
  rewrite GetSchedule_run. cbv zeta. fold url. rewrite Hurl.
  change (Header_Set "Authorization" (token (this st)) (mkRequest "GET" url ∅ ""))
    with asked.
  cbn [this world]. rewrite Hrt, Hdec. split; [reflexivity|].
  cbn [snd world]. unfold http_requests, record. cbn [calls].
  rewrite !omap_app. cbn. rewrite app_nil_r. reflexivity.
Qed.

Lemma GetSchedule_returns_decoded_body_witness :
  let body := Sim.dq
    "{'schedule':{'combos':[],'allSounds':[1,2],'playNights':3,'description':'x'}}" in
  let E := Demo.env_always
             (Got (mkResponse 500 "500 Internal Server Error" (mkBody body None))) in
  (GetSchedule E Demo.start).1 = Returned (mkSchedule [] [1; 2] 3 "x", nil_error)
  /\ URL <$> http_requests (world (GetSchedule E Demo.start).2)
     = ["http://srv/api/v1/schedules"].
Proof.
  cbn zeta.
  destruct (GetSchedule_returns_decoded_body
              (Demo.env_always
                 (Got (mkResponse 500 "500 Internal Server Error"
                         (mkBody (Sim.dq
    "{'schedule':{'combos':[],'allSounds':[1,2],'playNights':3,'description':'x'}}")
                            None))))
              Demo.start _ (mkScheduleResponse (mkSchedule [] [1; 2] 3 "x"))
              eq_refl eq_refl) as [Hres Hreq];
    [vm_compute; reflexivity|].
  split; [exact Hres|]. rewrite Hreq. reflexivity.
Defined.

(** X2.  When the schedule request fails in the transport, or its response
    does not decode, [GetSchedule] returns the zero schedule together with
    that error as it is, not wrapped in the package's [Error]; a retry loop
    that asks [IsPermanentError] therefore sees it as permanent. *)
Theorem GetSchedule_failure_is_unclassified (E : Env) (st : St) (msg : string) :
  let url := serverURL (this st) +:+ "/api/v1/schedules" in
  let asked := mkRequest "GET" url {[ "Authorization" := token (this st) ]} "" in
  let w0 := record (EvLog "Getting new schedule") (world st) in
  url_Parse E url = None ->
  (http_RoundTrip E w0 0 asked = Failed msg
   \/ exists resp : Response,
        http_RoundTrip E w0 0 asked = Got resp
        /\ json_Decode_scheduleResponse E (Body resp) = Failed msg) ->
  (GetSchedule E st).1 = Returned (Schedule_zero, OtherError msg)
  /\ IsPermanentError (OtherError msg) = Returned true.
Proof.
  intros url asked w0 Hurl Hfail.
  rewrite GetSchedule_run. cbv zeta. fold url. rewrite Hurl.
  change (Header_Set "Authorization" (token (this st)) (mkRequest "GET" url ∅ ""))
    with asked.
  cbn [this world]. fold w0.
  destruct Hfail as [Hrt|(resp & Hrt & Hdec)].
  - rewrite Hrt. repeat split.
  - rewrite Hrt, Hdec. repeat split.
Qed.

Lemma GetSchedule_failure_is_unclassified_witness :
  (GetSchedule (Demo.env_always (Failed "dial tcp: connection refused")) Demo.start).1
    = Returned (Schedule_zero, OtherError "dial tcp: connection refused")
  /\ IsPermanentError (OtherError "dial tcp: connection refused") = Returned true.
Proof.
  destruct (GetSchedule_failure_is_unclassified
              (Demo.env_always (Failed "dial tcp: connection refused")) Demo.start
              "dial tcp: connection refused" eq_refl (or_introl eq_refl))
    as (Hres & Hperm).
  split; [exact Hres | exact Hperm].
Defined.

(** X3.  [GetSchedule] drops the error of [http.NewRequest].  When the
    schedule URL does not parse, the method panics on the nil request: it
    returns nothing, and no request has reached the transport. *)
Theorem GetSchedule_unparsable_url_panics (E : Env) (st : St) (msg : string) :
  url_Parse E (serverURL (this st) +:+ "/api/v1/schedules") = Some msg ->
  (exists text : string, (GetSchedule E st).1 = Panicked text)
  /\ http_requests (world (GetSchedule E st).2) = http_requests (world st)
  /\ files (world (GetSchedule E st).2) = files (world st).
Proof.
  intros Hurl. rewrite GetSchedule_run. cbv zeta. rewrite Hurl.
  split; [eexists; reflexivity|]. split; [|reflexivity].
  cbn [snd world]. unfold http_requests, record. cbn [calls].
  rewrite omap_app. cbn. apply app_nil_r.
Qed.

Lemma GetSchedule_unparsable_url_panics_witness :
  let st := mkSt (mkAPI (String "009" "srv") "birds" "lure-1" "secret" "tok" false)
                 Sim.empty_world in
  (exists text : string,
     (GetSchedule (Demo.env_always (Got (Sim.ok "{}"))) st).1 = Panicked text)
  /\ http_requests (world (GetSchedule (Demo.env_always (Got (Sim.ok "{}"))) st).2) = [].
Proof.
  cbn zeta.
  destruct (GetSchedule_unparsable_url_panics
              (Demo.env_always (Got (Sim.ok "{}")))
              (mkSt (mkAPI (String "009" "srv") "birds" "lure-1" "secret" "tok" false)
                    Sim.empty_world)
              "net/url: invalid control character in URL" eq_refl)
    as (Hpanic & Hreq & _).
  split; [exact Hpanic | exact Hreq].
Defined.

(** ** Fetching one file *)

(** [http_requests] of a log that has grown. *)
Lemma http_requests_record (ev : Event) (w : World) :
  http_requests (record ev w)
    = (http_requests w ++ match ev with EvHTTP _ req => [req] | _ => [] end)%list.
Proof.
  unfold http_requests, record. cbn [calls]. rewrite omap_app.
  destruct ev; reflexivity.
Qed.

(** [GetFile] from the signed token on, once the file has been created. *)
Lemma GetFile_after_create (E : Env) (fileID : Z) (path : string) (st : St)
    (resp : Response) (fr : fileResponse) :
  let asked :=
    mkRequest "GET" (serverURL (this st) +:+ "/api/v1/files/" +:+ strconv_Itoa fileID)
              {[ "Authorization" := token (this st) ]} "" in
  let w1 := record (EvHTTP 0 asked) (world st) in
  let w2 := after_Create path w1 in
  let dl := mkRequest "GET" (serverURL (this st) +:+ "/api/v1/signedUrl?jwt=" +:+ Jwt fr)
                      ∅ "" in
  url_Parse E (URL asked) = None ->
  http_RoundTrip E (world st) 0 asked = Got resp ->
  json_Decode_fileResponse E (Body resp) = Got fr ->
  os_fault E w1 (EvCreate path) = None ->
  GetFile E fileID path st =
    match url_Parse E (URL dl) with
    | Some err => (Returned (OtherError err), mkSt (this st) w2)
    | None =>
        match http_RoundTrip E w2 0 dl with
        | Failed err => (Returned (OtherError err), mkSt (this st) (record (EvHTTP 0 dl) w2))
        | Got got =>
            if bool_decide (StatusCode got <> StatusOK) then
              (Returned (OtherError ("bad status: " +:+ Status got)),
               mkSt (this st) (record (EvHTTP 0 dl) w2))
            else io_Copy E path (Body got) (mkSt (this st) (record (EvHTTP 0 dl) w2))
        end
    end.
Proof.
  intros asked w1 w2 dl Hurl Hmeta Hfr Hcreate.
  unfold w2, w1, dl in *. unfold asked in Hurl. cbn [URL] in *.
  rewrite GetFile_run. cbv zeta. rewrite Hurl.
  change (Header_Set "Authorization" (token (this st))
            (mkRequest "GET" (serverURL (this st) +:+ "/api/v1/files/" +:+ strconv_Itoa fileID)
                       ∅ ""))
    with asked.
  rewrite Hmeta, Hfr. rewrite getFileFromJWT_run. cbn [this world].
  rewrite Hcreate. reflexivity.
Qed.

(** X4.  When the metadata request of [GetFile] fails in the transport, or
    its response does not decode, [GetFile] returns that error and has not
    touched the disk: no file is created and the files are what they
    were. *)
Theorem GetFile_metadata_failure_creates_nothing (E : Env) (fileID : Z) (path : string)
    (st : St) (msg : string) :
  let asked :=
    mkRequest "GET" (serverURL (this st) +:+ "/api/v1/files/" +:+ strconv_Itoa fileID)
              {[ "Authorization" := token (this st) ]} "" in
  url_Parse E (URL asked) = None ->
  (http_RoundTrip E (world st) 0 asked = Failed msg
   \/ exists resp : Response,
        http_RoundTrip E (world st) 0 asked = Got resp
        /\ json_Decode_fileResponse E (Body resp) = Failed msg) ->
  GetFile E fileID path st
    = (Returned (OtherError msg), mkSt (this st) (record (EvHTTP 0 asked) (world st)))
  /\ files (world (GetFile E fileID path st).2) = files (world st)
  /\ created_paths (world (GetFile E fileID path st).2) = created_paths (world st).
Proof.
  intros asked Hurl Hfail. unfold asked in Hurl. cbn [URL] in Hurl.
  assert (Hrun : GetFile E fileID path st
                 = (Returned (OtherError msg),
                    mkSt (this st) (record (EvHTTP 0 asked) (world st)))).
  { rewrite GetFile_run. cbv zeta. rewrite Hurl.
    change (Header_Set "Authorization" (token (this st))
              (mkRequest "GET"
                 (serverURL (this st) +:+ "/api/v1/files/" +:+ strconv_Itoa fileID) ∅ ""))
      with asked.
    destruct Hfail as [Hrt|(resp & Hrt & Hdec)].
    - rewrite Hrt. reflexivity.
    - rewrite Hrt, Hdec. reflexivity. }
  rewrite Hrun. split; [reflexivity|]. split; [reflexivity|].
  cbn [snd world]. unfold created_paths, record. cbn [calls].
  rewrite omap_app. cbn. apply app_nil_r.
Qed.

Lemma GetFile_metadata_failure_creates_nothing_witness :
  let E := Demo.env_always (Got (Sim.ok "not json")) in
  (exists msg : string, (GetFile E 5 "sounds/5" Demo.start).1 = Returned (OtherError msg))
  /\ files (world (GetFile E 5 "sounds/5" Demo.start).2) = ∅
  /\ created_paths (world (GetFile E 5 "sounds/5" Demo.start).2) = [].
Proof.
  cbn zeta.
  destruct (GetFile_metadata_failure_creates_nothing
              (Demo.env_always (Got (Sim.ok "not json"))) 5 "sounds/5" Demo.start
              "invalid character in literal null" eq_refl)
    as (Hrun & Hfiles & Hcreated).
  { right. exists (Sim.ok "not json"). split; [reflexivity | vm_compute; reflexivity]. }
  split; [rewrite Hrun; eexists; reflexivity|].
  split; [exact Hfiles | exact Hcreated].
Defined.

(** X5.  When [os.Create] fails, [GetFile] returns its error without asking
    for the signed URL: the metadata request is the only request made, and
    the files are what they were. *)
Theorem GetFile_create_failure_skips_download (E : Env) (fileID : Z) (path : string)
    (st : St) (resp : Response) (fr : fileResponse) (msg : string) :
  let asked :=
    mkRequest "GET" (serverURL (this st) +:+ "/api/v1/files/" +:+ strconv_Itoa fileID)
              {[ "Authorization" := token (this st) ]} "" in
  url_Parse E (URL asked) = None ->
  http_RoundTrip E (world st) 0 asked = Got resp ->
  json_Decode_fileResponse E (Body resp) = Got fr ->
  os_fault E (record (EvHTTP 0 asked) (world st)) (EvCreate path) = Some msg ->
  (GetFile E fileID path st).1 = Returned (OtherError msg)
  /\ http_requests (world (GetFile E fileID path st).2)
     = (http_requests (world st) ++ [asked])%list
  /\ files (world (GetFile E fileID path st).2) = files (world st).
Proof.
  intros asked Hurl Hmeta Hfr Hcreate. unfold asked in Hurl. cbn [URL] in Hurl.
  rewrite GetFile_run. cbv zeta. rewrite Hurl.
  change (Header_Set "Authorization" (token (this st))
            (mkRequest "GET"
               (serverURL (this st) +:+ "/api/v1/files/" +:+ strconv_Itoa fileID) ∅ ""))
    with asked.
  rewrite Hmeta, Hfr. rewrite getFileFromJWT_run. cbn [this world].
  rewrite Hcreate. cbn [fst snd world].
  split; [reflexivity|]. split; [|reflexivity].
  rewrite !http_requests_record. rewrite app_nil_r. reflexivity.
Qed.

Lemma GetFile_create_failure_skips_download_witness :
  let E := Sim.env (Demo.sounds [])
             (fun w ev => match ev with
                          | EvCreate _ => Some "open sounds/5: permission denied"
                          | _ => None
                          end) in
  (GetFile E 5 "sounds/5" Demo.start).1
    = Returned (OtherError "open sounds/5: permission denied")
  /\ URL <$> http_requests (world (GetFile E 5 "sounds/5" Demo.start).2)
     = ["http://srv/api/v1/files/5"].
Proof.
  cbn zeta.
  destruct (GetFile_create_failure_skips_download
              (Sim.env (Demo.sounds [])
                 (fun w ev => match ev with
                              | EvCreate _ => Some "open sounds/5: permission denied"
                              | _ => None
                              end))
              5 "sounds/5" Demo.start
              (Sim.ok (Sim.dq "{'jwt':'key-5'}")) (mkFileResponse "key-5")
              "open sounds/5: permission denied"
              eq_refl eq_refl)
    as (Hres & Hreq & _); [vm_compute; reflexivity | reflexivity |].
  split; [exact Hres|]. rewrite Hreq. reflexivity.
Defined.

(** X6.  A download that goes through stores what the server sent: when
    the signed URL answers 200, its body is read to the end and the disk
    takes the write, [GetFile] returns nil, the file at [path] holds
    exactly the body, no other file has changed, and the calls made are,
    in order, the metadata request, [os.Create], the download request and
    the write.  The download request carries no header: the session token
    goes to the metadata endpoint only. *)
Theorem GetFile_stores_body (E : Env) (fileID : Z) (path : string) (st : St)
    (resp : Response) (fr : fileResponse) (got : Response) :
  let asked :=
    mkRequest "GET" (serverURL (this st) +:+ "/api/v1/files/" +:+ strconv_Itoa fileID)
              {[ "Authorization" := token (this st) ]} "" in
  let w1 := record (EvHTTP 0 asked) (world st) in
  let w2 := after_Create path w1 in
  let dl := mkRequest "GET" (serverURL (this st) +:+ "/api/v1/signedUrl?jwt=" +:+ Jwt fr)
                      ∅ "" in
  let data := content (Body got) in
  url_Parse E (URL asked) = None ->
  http_RoundTrip E (world st) 0 asked = Got resp ->
  json_Decode_fileResponse E (Body resp) = Got fr ->
  os_fault E w1 (EvCreate path) = None ->
  url_Parse E (URL dl) = None ->
  http_RoundTrip E w2 0 dl = Got got ->
  StatusCode got = 200 ->
  broken (Body got) = None ->
  os_fault E (record (EvHTTP 0 dl) w2) (EvWrite path data) = None ->
  (GetFile E fileID path st).1 = Returned nil_error
  /\ files (world (GetFile E fileID path st).2) = <[path := data]> (files (world st))
  /\ calls (world (GetFile E fileID path st).2)
     = (calls (world st)
          ++ [EvHTTP 0 asked; EvCreate path; EvHTTP 0 dl; EvWrite path data])%list.
Proof.
  intros asked w1 w2 dl data Hurl Hmeta Hfr Hcreate Hdl Hgot Hcode Hread Hwrite.
  rewrite (GetFile_after_create E fileID path st resp fr Hurl Hmeta Hfr Hcreate).
  fold asked w1 w2 dl. rewrite Hdl, Hgot.
  rewrite bool_decide_eq_false_2 by (rewrite Hcode; unfold StatusOK; lia).
  unfold io_Copy. cbn [this world]. fold data. rewrite Hwrite, Hread.
  cbn [fst snd world files calls record].
  split; [reflexivity|]. split.
  - unfold w2, after_Create, w1, record. cbn [files]. apply insert_insert_eq.
  - unfold w2, after_Create, w1, record. cbn [calls].
    rewrite <- !app_assoc. reflexivity.
Qed.

Lemma GetFile_stores_body_witness :
  let st := mkSt Demo.session (mkWorld {[ "sounds/5" := "an older sound" ]} ∅ []) in
  (GetFile (Demo.env_sounds []) 5 "sounds/5" st).1 = Returned nil_error
  /\ files (world (GetFile (Demo.env_sounds []) 5 "sounds/5" st).2) !! "sounds/5"
     = Some "sound 5".
Proof.
  cbn zeta.
  destruct (GetFile_stores_body (Demo.env_sounds []) 5 "sounds/5"
              (mkSt Demo.session (mkWorld {[ "sounds/5" := "an older sound" ]} ∅ []))
              (Sim.ok (Sim.dq "{'jwt':'key-5'}")) (mkFileResponse "key-5")
              (Sim.ok "sound 5"))
    as (Hres & Hfiles & _); try (vm_compute; reflexivity).
  split; [exact Hres|]. rewrite Hfiles. apply lookup_insert_eq.
Defined.

(** X7.  A download that breaks off leaves a truncated file behind: when
    the signed URL answers 200 but reading its body ends in an error,
    [GetFile] returns that read error, and the file at [path] holds the
    bytes that were read before it.  The file is not removed. *)
Theorem GetFile_interrupted_body_leaves_part (E : Env) (fileID : Z) (path : string)
    (st : St) (resp : Response) (fr : fileResponse) (got : Response) (msg : string) :
  let asked :=
    mkRequest "GET" (serverURL (this st) +:+ "/api/v1/files/" +:+ strconv_Itoa fileID)
              {[ "Authorization" := token (this st) ]} "" in
  let w1 := record (EvHTTP 0 asked) (world st) in
  let w2 := after_Create path w1 in
  let dl := mkRequest "GET" (serverURL (this st) +:+ "/api/v1/signedUrl?jwt=" +:+ Jwt fr)
                      ∅ "" in
  let data := content (Body got) in
  url_Parse E (URL asked) = None ->
  http_RoundTrip E (world st) 0 asked = Got resp ->
  json_Decode_fileResponse E (Body resp) = Got fr ->
  os_fault E w1 (EvCreate path) = None ->
  url_Parse E (URL dl) = None ->
  http_RoundTrip E w2 0 dl = Got got ->
  StatusCode got = 200 ->
  broken (Body got) = Some msg ->
  os_fault E (record (EvHTTP 0 dl) w2) (EvWrite path data) = None ->
  (GetFile E fileID path st).1 = Returned (OtherError msg)
  /\ files (world (GetFile E fileID path st).2) !! path = Some data.
Proof.
  intros asked w1 w2 dl data Hurl Hmeta Hfr Hcreate Hdl Hgot Hcode Hread Hwrite.
  rewrite (GetFile_after_create E fileID path st resp fr Hurl Hmeta Hfr Hcreate).
  fold asked w1 w2 dl. rewrite Hdl, Hgot.
  rewrite bool_decide_eq_false_2 by (rewrite Hcode; unfold StatusOK; lia).
  unfold io_Copy. cbn [this world]. fold data. rewrite Hwrite, Hread.
  cbn [fst snd world files].
  split; [reflexivity | apply lookup_insert_eq].
Qed.

Lemma GetFile_interrupted_body_leaves_part_witness :
  let E := Sim.env
             (fun w timeout req =>
                match Sim.strip "http://srv/api/v1/files/" (URL req) with
                | Some _ => Got (Sim.ok (Sim.dq "{'jwt':'key'}"))
                | None => Got (mkResponse 200 "200 OK"
                                 (mkBody "sou" (Some "unexpected EOF")))
                end)
             Sim.no_fault in
  (GetFile E 5 "sounds/5" Demo.start).1 = Returned (OtherError "unexpected EOF")
  /\ files (world (GetFile E 5 "sounds/5" Demo.start).2) !! "sounds/5" = Some "sou".
Proof.
  cbn zeta.
  refine (GetFile_interrupted_body_leaves_part
            (Sim.env
               (fun w timeout req =>
                  match Sim.strip "http://srv/api/v1/files/" (URL req) with
                  | Some _ => Got (Sim.ok (Sim.dq "{'jwt':'key'}"))
                  | None => Got (mkResponse 200 "200 OK"
                                   (mkBody "sou" (Some "unexpected EOF")))
                  end)
               Sim.no_fault)
            5 "sounds/5" Demo.start
            (Sim.ok (Sim.dq "{'jwt':'key'}")) (mkFileResponse "key")
            (mkResponse 200 "200 OK" (mkBody "sou" (Some "unexpected EOF")))
            "unexpected EOF" _ _ _ _ _ _ _ _ _);
    vm_compute; reflexivity.
Defined.

(** X8.  [GetFile] drops the error of [http.NewRequest].  When the
    metadata URL does not parse, the method panics on the nil request and
    the world is exactly what it was: no request, no file. *)
Theorem GetFile_unparsable_url_panics (E : Env) (fileID : Z) (path : string) (st : St)
    (msg : string) :
  url_Parse E (serverURL (this st) +:+ "/api/v1/files/" +:+ strconv_Itoa fileID) = Some msg ->
  exists text : string, GetFile E fileID path st = (Panicked text, st).
Proof.
  intros Hurl. rewrite GetFile_run. rewrite Hurl. eexists. reflexivity.
Qed.

Lemma GetFile_unparsable_url_panics_witness :
  let st := mkSt (mkAPI (String "009" "srv") "birds" "lure-1" "secret" "tok" false)
                 Sim.empty_world in
  exists text : string,
    GetFile (Demo.env_sounds []) 5 "sounds/5" st = (Panicked text, st).
Proof.
  cbn zeta.
  exact (GetFile_unparsable_url_panics (Demo.env_sounds []) 5 "sounds/5"
           (mkSt (mkAPI (String "009" "srv") "birds" "lure-1" "secret" "tok" false)
                 Sim.empty_world)
           "net/url: invalid control character in URL" eq_refl).
Defined.






(** ** Fetching all files: bounds and what is kept *)




Lemma getFileFromJWT_keeps_files (E : Env) (jwt path other : string) (st : St) :
  is_Some (files (world st) !! other) ->
  is_Some (files (world (getFileFromJWT E jwt path st).2) !! other).
Proof.
  intros Hkept. rewrite getFileFromJWT_run. unfold io_Copy, after_Create, record.
  cbv zeta. repeat case_match; cbn [snd world files];
    rewrite ?lookup_insert_is_Some'; auto.
Qed.

Lemma GetFile_keeps_files (E : Env) (fileID : Z) (path other : string) (st : St) :
  is_Some (files (world st) !! other) ->
  is_Some (files (world (GetFile E fileID path st).2) !! other).
Proof.
  intros Hkept. rewrite GetFile_run. cbv zeta.
  repeat case_match; try exact Hkept.
  apply getFileFromJWT_keeps_files. exact Hkept.
Qed.

Lemma GetFile_dirs (E : Env) (fileID : Z) (path : string) (st : St) :
  dirs (world (GetFile E fileID path st).2) = dirs (world st).
Proof.
  rewrite GetFile_run. cbv zeta. repeat case_match; try reflexivity.
  rewrite getFileFromJWT_run. unfold io_Copy, after_Create, record. cbv zeta.
  repeat case_match; reflexivity.
Qed.

Lemma GetFiles_loop_keeps_files (E : Env) (folder : string) (ids : list Z) (other : string)
    (st : St) :
  is_Some (files (world st) !! other) ->
  is_Some (files (world (GetFiles_loop E folder ids st).2) !! other).
Proof.
  revert st. induction ids as [|id ids IH]; intros st Hkept; [exact Hkept|].
  cbn [GetFiles_loop]. unfold mbind, Go_bind.
  pose proof (GetFile_keeps_files E id (filepath_Join E folder (strconv_Itoa id)) other st Hkept)
    as Hid.
  destruct (GetFile E id _ st) as [[err|msg] st1]; cbn [snd] in *; [|exact Hid].
  destruct err; cbn [mret Go_ret snd]; auto.
Qed.

Lemma GetFiles_loop_dirs (E : Env) (folder : string) (ids : list Z) (st : St) :
  dirs (world (GetFiles_loop E folder ids st).2) = dirs (world st).
Proof.
  revert st. induction ids as [|id ids IH]; intros st; [reflexivity|].
  cbn [GetFiles_loop]. unfold mbind, Go_bind.
  pose proof (GetFile_dirs E id (filepath_Join E folder (strconv_Itoa id)) st) as Hid.
  destruct (GetFile E id _ st) as [[err|msg] st1]; cbn [snd] in *; [|exact Hid].
  destruct err; cbn [mret Go_ret snd]; try exact Hid.
  rewrite IH. exact Hid.
Qed.

(** X11.  [GetFilesFromSchedule] removes nothing: every file that was on
    disk before the call is on disk after it (its content may have been
    replaced), on every path through the method, and every directory that
    existed still exists. *)
Theorem GetFilesFromSchedule_removes_nothing (E : Env) (schedule : Schedule)
    (folder : string) (st : St) :
  (forall path : string,
     is_Some (files (world st) !! path) ->
     is_Some (files (world (GetFilesFromSchedule E schedule folder st).2) !! path))
  /\ dirs (world st) ⊆ dirs (world (GetFilesFromSchedule E schedule folder st).2).
Proof.
  unfold GetFilesFromSchedule. run.
  destruct (os_fault E (world st) (EvMkdirAll folder)) as [err|].
  - cbn [snd world record files dirs]. split; [auto | reflexivity].
  - split.
    + intros path Hkept. apply GetFiles_loop_keeps_files. exact Hkept.
    + rewrite GetFiles_loop_dirs. cbn [world dirs record]. set_solver.
Qed.

Lemma GetFilesFromSchedule_removes_nothing_witness :
  let st := mkSt Demo.session (mkWorld {[ "notes.txt" := "keep me" ]} {[ "home" ]} []) in
  let after := world (GetFilesFromSchedule (Demo.env_sounds ["7"])
                        (mkSchedule [] [5; 7; 5] 1 "") "sounds" st).2 in
  is_Some (files after !! "notes.txt") /\ "home" ∈ dirs after.
Proof.
  cbn zeta.
  destruct (GetFilesFromSchedule_removes_nothing (Demo.env_sounds ["7"])
              (mkSchedule [] [5; 7; 5] 1 "") "sounds"
              (mkSt Demo.session (mkWorld {[ "notes.txt" := "keep me" ]} {[ "home" ]} [])))
    as [Hfiles Hdirs].
  split.
  - apply Hfiles. exists "keep me". reflexivity.
  - apply Hdirs. cbn [world dirs]. apply elem_of_singleton. reflexivity.
Defined.

(** ** Authentication, all outcomes *)

(** Every run of [newToken]: what it returns, and what it has done. *)
Lemma newToken_outcome (E : Env) (st : St) :
  let asked payload :=
    mkRequest "POST" (serverURL (this st) +:+ "/authenticate_device")
              {[ "Content-Type" := "application/json" ]} payload in
  ((newToken E st).1 = Returned nil_error
   \/ exists msg : string, (newToken E st).1 = Returned (OtherError msg))
  /\ files (world (newToken E st).2) = files (world st)
  /\ dirs (world (newToken E st).2) = dirs (world st)
  /\ (calls (world (newToken E st).2) = calls (world st)
      \/ exists payload : bytes,
           json_Marshal_strings E
             {[ "devicename" := deviceName (this st); "password" := password (this st) ]}
             = Got payload
           /\ calls (world (newToken E st).2)
              = (calls (world st) ++ [EvHTTP 0 (asked payload)])%list).
Proof.
  intros asked. unfold newToken. run.
  destruct (bool_decide (password (this st) = "")); [cbn; eauto 10|].
  destruct (json_Marshal_strings E _) as [msg|payload] eqn:Hm; [cbn; eauto 10|].
  run. unfold http_NewRequest.
  destruct (url_Parse E _) as [msg|]; run; [cbn; eauto 10|].
  change (Header_Set "Content-Type" "application/json"
            (mkRequest "POST" (serverURL (this st) +:+ "/authenticate_device") ∅ payload))
    with (asked payload).
  assert (Hsent : exists p : bytes,
            Got payload = Got p
            /\ (calls (world st) ++ [EvHTTP 0 (asked payload)])%list
               = (calls (world st) ++ [EvHTTP 0 (asked p)])%list) by eauto.
  destruct (http_RoundTrip E (world st) 0 _) as [msg|postResp]; [cbn; eauto 10|].
  destruct (json_Decode_tokenResponse E (Body postResp)) as [msg|resp]; [cbn; eauto 10|].
  destruct (Success resp); cbn; eauto 10.
Qed.

(** [newToken] writes the token and nothing else. *)
Lemma newToken_writes_token_only (E : Env) (st : St) :
  exists tok : string, this (newToken E st).2 = with_token tok (this st).
Proof.
  assert (Hsame : forall api : CacophonyAPI, api = with_token (token api) api)
    by (intros []; reflexivity).
  unfold newToken. run.
  destruct (bool_decide (password (this st) = "")); [cbn; eauto|].
  destruct (json_Marshal_strings E _) as [msg|payload]; [cbn; eauto|].
  run. unfold http_NewRequest.
  destruct (url_Parse E _) as [msg|]; run; [cbn; eauto|].
  destruct (http_RoundTrip E (world st) 0 _) as [msg|postResp]; [cbn; eauto|].
  destruct (json_Decode_tokenResponse E (Body postResp)) as [msg|resp]; [cbn; eauto|].
  destruct (Success resp); cbn; eauto.
Qed.

(** X12.  [NewAPI] never hands out a session together with an error and
    never panics.  Whatever goes wrong in it (no password, a payload that
    does not encode, a URL that does not parse, a transport failure, a
    body that does not decode, a refusal by the server) comes back as an
    error that is not of the package's [Error] type, so that
    [IsPermanentError] takes every failure of [NewAPI] as permanent.  A
    session that is handed out has the server, group, device name and
    password it was asked for, and [JustRegistered] false. *)
Theorem NewAPI_failures_are_permanent (E : Env)
    (serverURL group deviceName password : string) (w : World) :
  (exists tok : string,
     (NewAPI E serverURL group deviceName password w).1
       = Returned (Some (mkAPI serverURL group deviceName password tok false), nil_error))
  \/ (exists msg : string,
        (NewAPI E serverURL group deviceName password w).1
          = Returned (None, OtherError msg)
        /\ IsPermanentError (OtherError msg) = Returned true).
Proof.
  unfold NewAPI.
  pose proof (newToken_outcome E (mkSt (mkAPI serverURL group deviceName password "" false) w))
    as (Hres & _).
  pose proof (newToken_writes_token_only E
                (mkSt (mkAPI serverURL group deviceName password "" false) w))
    as (tok & Htok).
  destruct (newToken E (mkSt (mkAPI serverURL group deviceName password "" false) w))
    as [r st']. cbn [fst snd this] in *.
  destruct Hres as [->|(msg & ->)].
  - left. exists tok. cbn [fst]. rewrite Htok. reflexivity.
  - right. exists msg. split; reflexivity.
Qed.

(** X13.  [NewAPI] calls the HTTP client at most once, does not try the
    call again, and makes no call to the disk.  The request it builds, if
    any, is a POST of [/authenticate_device] under the server URL, for a
    client without timeout, with the content type [application/json] as
    its only header and, as its body, the encoding of the mapping that
    holds the device name and the password; the group is not part of it. *)
Theorem NewAPI_calls_client_at_most_once (E : Env)
    (serverURL group deviceName password : string) (w : World) :
  let after := (NewAPI E serverURL group deviceName password w).2 in
  files after = files w
  /\ dirs after = dirs w
  /\ (calls after = calls w
      \/ exists payload : bytes,
           json_Marshal_strings E {[ "devicename" := deviceName; "password" := password ]}
             = Got payload
           /\ calls after
              = (calls w
                   ++ [EvHTTP 0 (mkRequest "POST" (serverURL +:+ "/authenticate_device")
                                   {[ "Content-Type" := "application/json" ]} payload)])%list).
Proof.
  unfold NewAPI.
  pose proof (newToken_outcome E (mkSt (mkAPI serverURL group deviceName password "" false) w))
    as (_ & Hfiles & Hdirs & Hcalls).
  cbn in Hfiles, Hdirs, Hcalls.
  destruct (newToken E (mkSt (mkAPI serverURL group deviceName password "" false) w))
    as [[err|msg] st']; cbn [snd] in *.
  - destruct err; cbn [snd]; auto.
  - cbn [snd]. auto.
Qed.

(** ** Event reports, all outcomes *)

(** X14.  A report that cannot be put in a request is refused before the
    network is touched: when the merged details do not encode, or the
    events URL does not parse, [ReportEvent] returns that error as it is,
    the session and the world are what they were, and [IsPermanentError]
    takes the error as permanent. *)
Theorem ReportEvent_unsendable_is_permanent (E : Env) (st : St) (jsonDetails : bytes)
    (times : list time.Time) (details : gmap string json) (msg : string) :
  json_Unmarshal E jsonDetails = Got (Some details) ->
  let merged := <["dateTimes" := JStrings (formatTimestamp <$> times)]> details in
  (json_Marshal E merged = Failed msg
   \/ exists jsonAll : bytes,
        json_Marshal E merged = Got jsonAll
        /\ url_Parse E (serverURL (this st) +:+ "/api/v1/events") = Some msg) ->
  ReportEvent E jsonDetails times st = (Returned (OtherError msg), st)
  /\ IsPermanentError (OtherError msg) = Returned true.
Proof.
  intros Hun merged Hfail. split; [|reflexivity].
  unfold ReportEvent. run. rewrite Hun. fold merged.
  destruct Hfail as [Hm|(jsonAll & Hm & Hurl)].
  - rewrite Hm. reflexivity.
  - rewrite Hm. unfold http_NewRequest. rewrite Hurl. reflexivity.
Qed.

Lemma ReportEvent_unsendable_is_permanent_witness :
  let st := mkSt (mkAPI (String "009" "srv") "birds" "lure-1" "secret" "tok" false)
                 Sim.empty_world in
  ReportEvent (Demo.env_always (Got (Sim.ok ""))) "{}" [Demo.new_year] st
    = (Returned (OtherError "net/url: invalid control character in URL"), st)
  /\ IsPermanentError (OtherError "net/url: invalid control character in URL") = Returned true.
Proof.
  cbn zeta.
  refine (ReportEvent_unsendable_is_permanent (Demo.env_always (Got (Sim.ok ""))) _ "{}"
            [Demo.new_year] ∅ "net/url: invalid control character in URL" _ _).
  - vm_compute. reflexivity.
  - right. eexists. split; vm_compute; reflexivity.
Defined.

(** X15.  [ReportEvent] calls the HTTP client at most once and never
    tries the call again, whatever its outcome.  The call, if any, is made
    on a client with the timeout of 60 seconds, and the request built for
    it is a POST of [/api/v1/events] under the server URL with exactly two
    headers, the content type [application/json] and the session token as
    [Authorization].  The disk is not touched. *)
Theorem ReportEvent_calls_client_at_most_once (E : Env) (jsonDetails : bytes)
    (times : list time.Time) (st : St) :
  let after := world (ReportEvent E jsonDetails times st).2 in
  files after = files (world st)
  /\ dirs after = dirs (world st)
  /\ (calls after = calls (world st)
      \/ exists body : bytes,
           calls after
           = (calls (world st)
                ++ [EvHTTP 60 (mkRequest "POST" (serverURL (this st) +:+ "/api/v1/events")
                                 {[ "Authorization" := token (this st);
                                    "Content-Type" := "application/json" ]} body)])%list).
Proof.
  intros after. subst after.
  destruct (json_Unmarshal E jsonDetails) as [msg|[details|]] eqn:Hun.
  - rewrite (proj1 (ReportEvent_rejected_details E st jsonDetails times msg Hun)). auto.
  - destruct (json_Marshal E (<["dateTimes" := JStrings (formatTimestamp <$> times)]> details))
      as [msg|jsonAll] eqn:Hm.
    { unfold ReportEvent. run. rewrite Hun, Hm. auto. }
    destruct (url_Parse E (serverURL (this st) +:+ "/api/v1/events")) as [msg|] eqn:Hurl.
    { unfold ReportEvent, http_NewRequest. run. rewrite Hun, Hm, Hurl. auto. }
    rewrite (ReportEvent_run E st jsonDetails times details jsonAll
               (mkRequest "POST" (serverURL (this st) +:+ "/api/v1/events") ∅ jsonAll)
               Hun Hm).
    + cbn [snd world record files dirs calls].
      split; [reflexivity|]. split; [reflexivity|]. right. exists jsonAll. reflexivity.
    + unfold http_NewRequest. rewrite Hurl. reflexivity.
  - unfold ReportEvent. run. rewrite Hun. auto.
Qed.

(** ** Timestamps *)

Lemma length_append (a b : string) :
  String.length (a +:+ b) = (String.length a + String.length b)%nat.
Proof.
  induction a as [|c a IH]; [reflexivity|].
  change (S (String.length (a +:+ b)) = S (String.length a + String.length b)).
  f_equal. exact IH.
Qed.

Lemma append_assoc (a b c : string) : (a +:+ b) +:+ c = a +:+ (b +:+ c).
Proof.
  induction a as [|x a IH]; [reflexivity|].
  change (String x ((a +:+ b) +:+ c) = String x (a +:+ (b +:+ c))).
  f_equal. exact IH.
Qed.

(** A number below [bound] is printed as a field of [width] digits, if
    all numbers below [bound] are. *)
Lemma appendInt_field (width bound : nat) (x : Z) :
  forallb (fun n => time.field width (time.appendInt (Z.of_nat n) width)) (seq 0 bound) = true ->
  0 <= x < Z.of_nat bound ->
  time.field width (time.appendInt x width) = true.
Proof.
  intros Hall Hx. rewrite forallb_forall in Hall.
  specialize (Hall (Z.to_nat x)). rewrite Z2Nat.id in Hall by lia.
  apply Hall. apply in_seq. lia.
Qed.

Lemma appendInt_two_digits (x : Z) :
  0 <= x < 100 -> time.field 2 (time.appendInt x 2) = true.
Proof.
  intros Hx. apply (appendInt_field 2 (Z.to_nat 100)); [vm_compute; reflexivity | lia].
Qed.

Lemma appendInt_four_digits (x : Z) :
  0 <= x < 10000 -> time.field 4 (time.appendInt x 4) = true.
Proof.
  intros Hx. apply (appendInt_field 4 (Z.to_nat 10000)); [vm_compute; reflexivity | lia].
Qed.

(** The year of a day between 0000-01-01 and 9999-12-31. *)
Lemma civil_year (days : Z) :
  -719528 <= days <= 2932896 -> 0 <= (time.civil days).1.1 <= 9999.
Proof.
  intros Hdays. unfold time.civil. cbn [fst].
  set (z := days + 719468). assert (Hz : -60 <= z <= 3652364) by (subst z; lia).
  clearbody z.
  set (era := z / 146097). set (doe := z mod 146097).
  assert (Hed : z = 146097 * era + doe /\ 0 <= doe < 146097).
  { subst era doe. split; [apply Z.div_mod; lia | apply Z.mod_pos_bound; lia]. }
  clearbody era doe.
  set (yoe := (doe - doe / 1460 + doe / 36524 - doe / 146096) / 365).
  set (doy := doe - (365 * yoe + yoe / 4 - yoe / 100)).
  assert (Hyoe : 0 <= yoe <= 399) by (subst yoe; Z.div_mod_to_equations; lia).
  assert (Hdoy : 0 <= doy <= 365) by (subst doy yoe; Z.div_mod_to_equations; lia).
  set (mp := (5 * doy + 2) / 153).
  assert (Hmp : 0 <= mp <= 11) by (subst mp; Z.div_mod_to_equations; lia).
  assert (Hera : -1 <= era <= 24) by lia.
  assert (Hlow : era = -1 -> yoe = 399 /\ 10 <= mp).
  { intros ->. assert (Hlate : 146037 <= doe) by lia.
    assert (Hy : yoe = 399) by (subst yoe; Z.div_mod_to_equations; lia).
    split; [exact Hy|]. subst mp doy. rewrite Hy. Z.div_mod_to_equations. lia. }
  assert (Hhigh : era = 24 -> yoe = 399 -> mp < 10).
  { intros -> Hy. assert (Hearly : doe <= 146036) by lia.
    subst mp doy. rewrite Hy. Z.div_mod_to_equations. lia. }
  destruct (mp <? 10) eqn:Hlt; [apply Z.ltb_lt in Hlt | apply Z.ltb_ge in Hlt].
  - destruct (mp + 3 <=? 2) eqn:Hm; [apply Z.leb_le in Hm; lia|]. lia.
  - destruct (mp - 9 <=? 2) eqn:Hm; [|apply Z.leb_gt in Hm; lia]. lia.
Qed.

(** X16.  For every instant of the years 0000 to 9999, the text
    [formatTimestamp] produces has the fixed layout
    [YYYY-MM-DDTHH:MM:SSZ]: twenty characters, six fields of decimal
    digits of widths 4, 2, 2, 2, 2, 2 with their separators, and the zone
    suffix [Z].  The text depends on the seconds of the instant only: its
    nanoseconds are dropped and the zone it came in is ignored. *)
Theorem formatTimestamp_layout (t : time.Time) :
  -62167219200 <= time.unix t < 253402300800 ->
  (exists Y M D h m s : string,
     time.field 4 Y = true /\ time.field 2 M = true /\ time.field 2 D = true
     /\ time.field 2 h = true /\ time.field 2 m = true /\ time.field 2 s = true
     /\ formatTimestamp t
        = Y +:+ "-" +:+ M +:+ "-" +:+ D +:+ "T" +:+ h +:+ ":" +:+ m +:+ ":" +:+ s +:+ "Z")
  /\ String.length (formatTimestamp t) = 20%nat
  /\ (forall ns zone : Z,
        formatTimestamp (time.mkTime (time.unix t) ns zone) = formatTimestamp t).
Proof.
  intros Hrange.
  assert (Hshape : exists Y M D h m s : string,
     time.field 4 Y = true /\ time.field 2 M = true /\ time.field 2 D = true
     /\ time.field 2 h = true /\ time.field 2 m = true /\ time.field 2 s = true
     /\ formatTimestamp t
        = Y +:+ "-" +:+ M +:+ "-" +:+ D +:+ "T" +:+ h +:+ ":" +:+ m +:+ ":" +:+ s +:+ "Z").
  { rewrite formatTimestamp_utc. unfold time.date_text, time.clock_text.
    cbn [time.unix time.offset]. rewrite Z.add_0_r.
    set (u := time.unix t) in *.
    pose proof (civil_month_day (u / 86400)) as Hmd.
    pose proof (civil_year (u / 86400)) as Hy.
    destruct (time.civil (u / 86400)) as [[y mo] d]. cbn [fst] in Hy.
    assert (Hday : -719528 <= u / 86400 <= 2932896)
      by (Z.div_mod_to_equations; lia).
    assert (Hsec : 0 <= u mod 86400 < 86400) by (apply Z.mod_pos_bound; lia).
    set (r := u mod 86400) in *.
    exists (time.appendInt y 4), (time.appendInt mo 2), (time.appendInt d 2),
           (time.appendInt (r / 3600) 2), (time.appendInt (r mod 3600 / 60) 2),
           (time.appendInt (r mod 60) 2).
    split; [apply appendInt_four_digits; lia|].
    split; [apply appendInt_two_digits; lia|].
    split; [apply appendInt_two_digits; lia|].
    split; [apply appendInt_two_digits; Z.div_mod_to_equations; lia|].
    split; [apply appendInt_two_digits; Z.div_mod_to_equations; lia|].
    split; [apply appendInt_two_digits; Z.div_mod_to_equations; lia|].
    revert y mo d Hmd Hy. intros y mo d _ _.
    generalize (time.appendInt y 4), (time.appendInt mo 2), (time.appendInt d 2),
               (time.appendInt (r / 3600) 2), (time.appendInt (r mod 3600 / 60) 2),
               (time.appendInt (r mod 60) 2).
    intros Y M D h m s.
    rewrite !append_assoc. reflexivity. }
  split; [exact Hshape|]. split.
  - destruct Hshape as (Y & M & D & h & m & s & HY & HM & HD & Hh & Hm & Hs & ->).
    unfold time.field in *.
    repeat match goal with
           | H : _ && _ = true |- _ => apply andb_true_iff in H as [H _]; apply Nat.eqb_eq in H
           end.
    rewrite !length_append, HY, HM, HD, Hh, Hm, Hs. reflexivity.
  - intros ns zone. reflexivity.
Qed.

Lemma formatTimestamp_layout_witness :
  String.length (formatTimestamp Demo.new_year) = 20%nat
  /\ formatTimestamp (time.mkTime 1672531200 999999999 (-34200))
     = formatTimestamp Demo.new_year.
Proof.
  destruct (formatTimestamp_layout Demo.new_year) as (_ & Hlen & Hsame);
    [cbn; lia|].
  split; [exact Hlen | exact (Hsame 999999999 (-34200))].
Defined.

(** ** The schedule request, all outcomes *)

(** X17.  [GetSchedule] writes one line to the log and calls the HTTP
    client at most once, a client without timeout, and does not try the
    call again; it does not touch the disk, whether it returns or
    panics. *)
Theorem GetSchedule_calls_client_at_most_once (E : Env) (st : St) :
  let after := world (GetSchedule E st).2 in
  let asked :=
    mkRequest "GET" (serverURL (this st) +:+ "/api/v1/schedules")
              {[ "Authorization" := token (this st) ]} "" in
  files after = files (world st)
  /\ dirs after = dirs (world st)
  /\ (calls after = (calls (world st) ++ [EvLog "Getting new schedule"])%list
      \/ calls after
         = (calls (world st) ++ [EvLog "Getting new schedule"; EvHTTP 0 asked])%list).
Proof.
  intros after asked. subst after. rewrite GetSchedule_run. cbv zeta.
  change (Header_Set "Authorization" (token (this st))
            (mkRequest "GET" (serverURL (this st) +:+ "/api/v1/schedules") ∅ ""))
    with asked.
  destruct (url_Parse E _) as [msg|]; [cbn; auto|].
  assert (Hlog : calls (record (EvHTTP 0 asked) (record (EvLog "Getting new schedule") (world st)))
                 = (calls (world st) ++ [EvLog "Getting new schedule"; EvHTTP 0 asked])%list)
    by (unfold record; cbn [calls]; rewrite <- app_assoc; reflexivity).
  destruct (http_RoundTrip E _ 0 asked) as [msg|resp]; [cbn [snd world]; auto|].
  destruct (json_Decode_scheduleResponse E (Body resp)); cbn [snd world]; auto.
Qed.
